(** * escrow-viewer: the Soroban transaction client and the network selector

    A shallow embedding of [src/utils/transactionFetcher.ts] and of the
    state kept by [src/contexts/NetworkContext.tsx].

    The TypeScript types of the client are erased at run time and every
    value read out of the RPC answer has type [any]; the embedding therefore
    works on untyped JavaScript values ([JsVal]) and writes out what the
    language does on them: truthiness, [||], property reads that raise a
    [TypeError] on [null] and [undefined], optional chaining, and the
    [try]/[catch] blocks of the two exported functions. *)

From Stdlib Require Import ZArith List String Ascii Bool Lia DecimalString.
Import ListNotations.

Open Scope string_scope.
Open Scope Z_scope.

Set Warnings "-register-all".

(* ================================================================== *)
(** ** JavaScript values and the operators the client uses            *)
(* ================================================================== *)

Module Js.

(** What [JSON.parse] can produce, plus [undefined].  The numbers the RPC
    service sends (ledger sequences, error codes, application orders) are
    integers, so a number is a [Z].  An object is the list of its own
    properties in source order, duplicate keys already resolved. *)
Inductive JsVal : Type :=
| JUndefined
| JNull
| JBool (b : bool)
| JNum (n : Z)
| JStr (s : string)
| JArr (elems : list JsVal)
| JObj (fields : list (string * JsVal)).

(** What a [throw] (or a rejected promise) carries. *)
Inductive Thrown : Type :=
| TypeError (what : string)
| SyntaxError (what : string)
| Error (message : JsVal).

(** Computations that may throw. *)
Definition Exc (A : Type) : Type := (Thrown + A)%type.

Definition ret {A} (a : A) : Exc A := inr a.
Definition throw {A} (e : Thrown) : Exc A := inl e.
Definition bind {A B} (c : Exc A) (k : A -> Exc B) : Exc B :=
  match c with
  | inl e => inl e
  | inr a => k a
  end.

(** [try { body } catch (e) { handler e }] when both end in a [return]. *)
Definition try_catch {A} (body : Exc A) (handler : Thrown -> A) : A :=
  match body with
  | inl e => handler e
  | inr a => a
  end.

(** ToBoolean. *)
Definition truthy (v : JsVal) : bool :=
  match v with
  | JUndefined | JNull => false
  | JBool b => b
  | JNum n => negb (n =? 0)
  | JStr s => negb (s =? "")%string
  | JArr _ | JObj _ => true
  end.

(** [a || b] on values whose evaluation cannot throw. *)
Definition or (a b : JsVal) : JsVal := if truthy a then a else b.

(** [a && b], where evaluating [b] may throw. *)
Definition and_then (a : JsVal) (b : Exc JsVal) : Exc JsVal :=
  if truthy a then b else inr a.

Fixpoint lookup (k : string) (fields : list (string * JsVal)) : JsVal :=
  match fields with
  | [] => JUndefined
  | (k', v) :: rest => if (k =? k')%string then v else lookup k rest
  end.

(** The value of [v.k] when the read does not throw.  Only own properties
    of objects are found: none of the property names this client reads is
    defined on the prototypes of strings, numbers, booleans or arrays. *)
Definition prop (v : JsVal) (k : string) : JsVal :=
  match v with
  | JObj fields => lookup k fields
  | _ => JUndefined
  end.

(** [v.k]: a [TypeError] on [null] and [undefined]. *)
Definition get (v : JsVal) (k : string) : Exc JsVal :=
  match v with
  | JUndefined | JNull =>
      throw (TypeError ("Cannot read properties of null or undefined, reading " ++ k))
  | _ => ret (prop v k)
  end.

(** [v?.k]. *)
Definition opt_get (v : JsVal) (k : string) : Exc JsVal :=
  match v with
  | JUndefined | JNull => ret JUndefined
  | _ => get v k
  end.

(** [v === n] for a number literal [n]. *)
Definition strict_eq_num (v : JsVal) (n : Z) : bool :=
  match v with
  | JNum m => m =? n
  | _ => false
  end.

(** [v === s] for a string literal [s]. *)
Definition strict_eq_str (v : JsVal) (s : string) : bool :=
  match v with
  | JStr t => (t =? s)%string
  | _ => false
  end.

(** [String.prototype.includes]. *)
Fixpoint includes (needle hay : string) : bool :=
  if prefix needle hay then true
  else match hay with
       | EmptyString => false
       | String _ rest => includes needle rest
       end.

(** [v?.includes(needle)]: strings search for a substring, arrays for an
    element; on any other non-nullish value [includes] is not a function. *)
Definition opt_call_includes (v : JsVal) (needle : string) : Exc JsVal :=
  match v with
  | JUndefined | JNull => ret JUndefined
  | JStr s => ret (JBool (includes needle s))
  | JArr elems => ret (JBool (existsb (fun x => strict_eq_str x needle) elems))
  | _ => throw (TypeError "includes is not a function")
  end.

Fixpoint mapM {A B} (f : A -> Exc B) (l : list A) : Exc (list B) :=
  match l with
  | [] => ret []
  | x :: rest =>
      bind (f x) (fun y => bind (mapM f rest) (fun ys => ret (y :: ys)))
  end.

(** [v.map(f)]: only arrays have [map]. *)
Definition array_map {B} (f : JsVal -> Exc B) (v : JsVal) : Exc (list B) :=
  match v with
  | JArr elems => mapM f elems
  | JUndefined | JNull =>
      throw (TypeError "Cannot read properties of null or undefined, reading map")
  | _ => throw (TypeError "map is not a function")
  end.

Fixpoint findM (p : JsVal -> Exc JsVal) (l : list JsVal) : Exc JsVal :=
  match l with
  | [] => ret JUndefined
  | x :: rest =>
      bind (p x) (fun b => if truthy b then ret x else findM p rest)
  end.

(** [v.find(p)]: the first element on which [p] is truthy, else
    [undefined]; only arrays have [find]. *)
Definition array_find (p : JsVal -> Exc JsVal) (v : JsVal) : Exc JsVal :=
  match v with
  | JArr elems => findM p elems
  | JUndefined | JNull =>
      throw (TypeError "Cannot read properties of null or undefined, reading find")
  | _ => throw (TypeError "find is not a function")
  end.

(** [`${n}`] for an integer. *)
Definition to_string (n : Z) : string := NilZero.string_of_int (Z.to_int n).

End Js.

Export Js.

Declare Scope exc_scope.
Delimit Scope exc_scope with exc.
Notation "x <- c ;; k" := (bind c (fun x => k))
  (at level 61, c at next level, right associativity) : exc_scope.
Open Scope exc_scope.

(* ================================================================== *)
(** ** The transport: [fetch], [Response], the SDK's [Contract]       *)
(* ================================================================== *)

Module Response.
(** What the client looks at in a [Response]: the status line and the
    outcome of [response.json()]. *)
Record t := mk {
  status : Z;
  json : Exc JsVal
}.

(** [response.ok]: the status is in the range 200-299. *)
Definition ok (r : t) : bool := (200 <=? status r) && (status r <=? 299).
End Response.

Module RequestInit.
(** The second argument of [fetch].  [body] is the value handed to
    [JSON.stringify]. *)
Record t := mk {
  method : string;
  headers : list (string * string);
  body : JsVal
}.
End RequestInit.

(** The promise returned by [fetch], once settled. *)
Inductive FetchOutcome : Type :=
| Rejected (reason : Thrown)
| Resolved (response : Response.t).

Definition await (o : FetchOutcome) : Exc Response.t :=
  match o with
  | Rejected reason => throw reason
  | Resolved response => ret response
  end.

(** The world outside the module: the network, and
    [new Contract(contractId).contractId()] of the Stellar SDK, which
    throws on an identifier that is not a contract address. *)
Record Env := mkEnv {
  fetch : string -> RequestInit.t -> FetchOutcome;
  Contract_contractId : string -> Exc string
}.

(** The [Contract] of the Stellar SDK, for the worlds the examples run
    in.  [new Contract(contractId)] decodes the identifier as a contract
    strkey and throws on anything else; [contractId()] encodes it back.  A
    contract strkey is 56 base-32 characters for 35 bytes: the version
    byte 16, a 32-byte hash, and the CRC-16/XMODEM of those 33 bytes, low
    byte first. *)
Module StellarSdk.

Definition base32_value (c : ascii) : option Z :=
  let n := Z.of_nat (nat_of_ascii c) in
  if (65 <=? n) && (n <=? 90) then Some (n - 65)
  else if (50 <=? n) && (n <=? 55) then Some (n - 24)
  else None.

Fixpoint base32_digits (s : string) : option (list Z) :=
  match s with
  | EmptyString => Some []
  | String c rest =>
      match base32_value c, base32_digits rest with
      | Some d, Some ds => Some (d :: ds)
      | _, _ => None
      end
  end.

(** Eight digits of five bits make five bytes. *)
Fixpoint bytes_of_digits (digits : list Z) : list Z :=
  match digits with
  | a :: b :: c :: d :: e :: f :: g :: h :: rest =>
      let n :=
        ((((((a * 32 + b) * 32 + c) * 32 + d) * 32 + e) * 32 + f) * 32 + g)
        * 32 + h in
      [n / 2 ^ 32; (n / 2 ^ 24) mod 256; (n / 2 ^ 16) mod 256;
       (n / 2 ^ 8) mod 256; n mod 256] ++ bytes_of_digits rest
  | _ => []
  end.

Definition crc16_bit (crc : Z) : Z :=
  if Z.testbit crc 15
  then Z.land (Z.lxor (Z.shiftl crc 1) 4129) 65535
  else Z.land (Z.shiftl crc 1) 65535.

Definition crc16_byte (crc byte : Z) : Z :=
  Nat.iter 8 crc16_bit (Z.lxor crc (Z.shiftl byte 8)).

Definition crc16 (bytes : list Z) : Z := fold_left crc16_byte bytes 0.

(** [StrKey.isValidContract]. *)
Definition isValidContract (s : string) : bool :=
  (String.length s =? 56)%nat &&
  match base32_digits s with
  | Some digits =>
      let bytes := bytes_of_digits digits in
      (nth 0 bytes 0 =? 16) &&
      (crc16 (firstn 33 bytes) =? nth 33 bytes 0 + 256 * nth 34 bytes 0)
  | None => false
  end.

(** [new Contract(contractId).contractId()]. *)
Definition contractId (contractId : string) : Exc string :=
  if isValidContract contractId then ret contractId
  else throw (Error (JStr ("Invalid contract ID: " ++ contractId))).

End StellarSdk.

(* ================================================================== *)
(** ** [src/utils/transactionFetcher.ts]                              *)
(* ================================================================== *)

Module TransactionMetadata.
(** The fields are whatever the RPC answer held: nothing checks them
    against the declared [string], [number] and status union. *)
Record t := mk {
  txHash : JsVal;
  ledger : JsVal;
  createdAt : JsVal;
  status : JsVal;
  applicationOrder : JsVal
}.
End TransactionMetadata.

Module TransactionDetails.
Record t := mk {
  txHash : JsVal;
  ledger : JsVal;
  createdAt : JsVal;
  status : JsVal;
  signers : list string;
  calledFunction : JsVal;
  args : JsVal;
  result : JsVal;
  envelope : JsVal;
  meta : JsVal
}.
End TransactionDetails.

Module FetchTransactionsOptions.
Record t := mk {
  startLedger : option Z;
  cursor : option string;
  limit : option Z
}.

(** [options = {}]. *)
Definition empty : t := mk None None None.
End FetchTransactionsOptions.

Module TransactionResponse.
(** [cursor] is [JUndefined] when the object has no such property;
    [retentionNotice] is [None] for [undefined]. *)
Record t := mk {
  transactions : list TransactionMetadata.t;
  latestLedger : JsVal;
  oldestLedger : JsVal;
  cursor : JsVal;
  hasMore : bool;
  retentionNotice : option string
}.
End TransactionResponse.

Module TransactionFetcher.

Definition SOROBAN_RPC_URL : string := "https://soroban-testnet.stellar.org".

Definition of_option {A} (inj : A -> JsVal) (o : option A) : JsVal :=
  match o with
  | Some a => inj a
  | None => JUndefined
  end.

Definition post (body : JsVal) : RequestInit.t :=
  RequestInit.mk "POST" [("Content-Type", "application/json")] body.

(** The [requestBody] of [fetchTransactions], after the destructuring
    [{ startLedger, cursor, limit = 50 } = options]. *)
Definition transactionsRequest (contractAddress : string)
    (options : FetchTransactionsOptions.t) : RequestInit.t :=
  let startLedger := FetchTransactionsOptions.startLedger options in
  let cursor := FetchTransactionsOptions.cursor options in
  let limit :=
    match FetchTransactionsOptions.limit options with
    | Some l => l
    | None => 50
    end in
  post (JObj [
    ("jsonrpc", JStr "2.0");
    ("id", JNum 1);
    ("method", JStr "getTransactions");
    ("params", JObj [
      ("startLedger", of_option JNum startLedger);
      ("cursor", of_option JStr cursor);
      ("limit", JNum limit);
      ("filters", JArr [
        JObj [("type", JStr "contract");
              ("contractIds", JArr [JStr contractAddress])]])])]).

Definition RETENTION_NOTICE : string :=
  "Transaction data beyond retention period. RPC typically retains 24h-7 days of history.".

Definition EMPTY_NOTICE : string :=
  "No recent transactions found. Note: RPC typically retains 24h-7 days of history.".

Definition UNABLE_NOTICE : string :=
  "Unable to fetch transaction history. This may be due to retention limits or network issues.".

(** The object returned on a retention error (lines 92-98). *)
Definition retentionResponse : TransactionResponse.t :=
  TransactionResponse.mk [] (JNum 0) (JNum 0) JUndefined false (Some RETENTION_NOTICE).

(** The object returned by the [catch] block (lines 127-133). *)
Definition gracefulResponse : TransactionResponse.t :=
  TransactionResponse.mk [] (JNum 0) (JNum 0) JUndefined false (Some UNABLE_NOTICE).

(** [error.code === -32600 || error.message?.includes("retention")]. *)
Definition isRetentionError (error : JsVal) : Exc bool :=
  code <- get error "code" ;;
  if strict_eq_num code (-32600) then ret true
  else
    message <- get error "message" ;;
    found <- opt_call_includes message "retention" ;;
    ret (truthy found).

(** The arrow function given to [map] (lines 104-110). *)
Definition toMetadata (tx : JsVal) : Exc TransactionMetadata.t :=
  id <- get tx "id" ;;
  ledger <- get tx "ledger" ;;
  createdAt <- get tx "createdAt" ;;
  status <- get tx "status" ;;
  applicationOrder <- get tx "applicationOrder" ;;
  ret (TransactionMetadata.mk id ledger createdAt status applicationOrder).

(** Lines 103-121: the listing built from [data.result]. *)
Definition listingOf (result : JsVal) : Exc TransactionResponse.t :=
  rawTransactions <- get result "transactions" ;;
  transactions <- array_map toMetadata (or rawTransactions (JArr [])) ;;
  latestLedger <- get result "latestLedger" ;;
  oldestLedger <- get result "oldestLedger" ;;
  cursor <- get result "cursor" ;;
  ret (TransactionResponse.mk
         transactions
         (or latestLedger (JNum 0))
         (or oldestLedger (JNum 0))
         cursor
         (truthy cursor)
         (match transactions with
          | [] => Some EMPTY_NOTICE
          | _ :: _ => None
          end)).

(** Lines 89-121: what the [try] block does with the parsed answer. *)
Definition listingOfData (data : JsVal) : Exc TransactionResponse.t :=
  error <- get data "error" ;;
  if truthy error then
    retention <- isRetentionError error ;;
    if retention then ret retentionResponse
    else
      message <- get error "message" ;;
      throw (Error (or message (JStr "Failed to fetch transactions")))
  else
    result <- get data "result" ;;
    listingOf result.

(** The body of the [try] block of [fetchTransactions] (lines 52-121). *)
Definition fetchTransactions_try (env : Env) (contractId : string)
    (options : FetchTransactionsOptions.t) : Exc TransactionResponse.t :=
  contractAddress <- Contract_contractId env contractId ;;
  response <- await (fetch env SOROBAN_RPC_URL
                       (transactionsRequest contractAddress options)) ;;
  if negb (Response.ok response) then
    throw (Error (JStr ("HTTP error! Status: " ++ to_string (Response.status response))))
  else
    data <- Response.json response ;;
    listingOfData data.

(** [fetchTransactions]: whatever the [try] block throws is logged and
    replaced by the graceful response. *)
Definition fetchTransactions (env : Env) (contractId : string)
    (options : FetchTransactionsOptions.t) : TransactionResponse.t :=
  try_catch (fetchTransactions_try env contractId options)
            (fun _ => gracefulResponse).

(** *** [fetchTransactionDetails] *)

Definition detailsRequest (txHash : string) : RequestInit.t :=
  post (JObj [
    ("jsonrpc", JStr "2.0");
    ("id", JNum 2);
    ("method", JStr "getTransaction");
    ("params", JObj [("hash", JStr txHash)])]).

(** The three [let] variables the inner [try] block assigns
    (lines 182-184). *)
Record Locals := mkLocals {
  calledFunction : JsVal;
  args : JsVal;
  result : JsVal
}.

Definition unassigned : Locals := mkLocals JUndefined JUndefined JUndefined.

(** Statements over the locals: an assignment made before a [throw]
    stays made. *)
Definition Stm (A : Type) : Type := Locals -> Locals * Exc A.

Definition sret {A} (a : A) : Stm A := fun l => (l, ret a).
Definition sbind {A B} (c : Stm A) (k : A -> Stm B) : Stm B :=
  fun l =>
    match c l with
    | (l', inl e) => (l', inl e)
    | (l', inr a) => k a l'
    end.
Definition lift {A} (c : Exc A) : Stm A := fun l => (l, c).
Definition skip : Stm unit := sret tt.

Definition set_calledFunction (v : JsVal) : Stm unit :=
  fun l => (mkLocals v (args l) (result l), ret tt).
Definition set_args (v : JsVal) : Stm unit :=
  fun l => (mkLocals (calledFunction l) v (result l), ret tt).
Definition set_result (v : JsVal) : Stm unit :=
  fun l => (mkLocals (calledFunction l) (args l) v, ret tt).

(** [try { body } catch (parseError) { console.warn(...) }]. *)
Definition try_warn (body : Stm unit) (l : Locals) : Locals := fst (body l).

Notation "x <~ c ;; k" := (sbind c (fun x => k))
  (at level 61, c at next level, right associativity).
Notation "c ;;; k" := (sbind c (fun _ => k))
  (at level 61, right associativity).

(** [tx.envelope?.v1?.tx?.operations || []]. *)
Definition operationsOf (tx : JsVal) : Exc JsVal :=
  envelope <- get tx "envelope" ;;
  v1 <- opt_get envelope "v1" ;;
  inner <- opt_get v1 "tx" ;;
  operations <- opt_get inner "operations" ;;
  ret (or operations (JArr [])).

(** [(op) => op.body?.invokeHostFunction]. *)
Definition isInvokeOp (op : JsVal) : Exc JsVal :=
  body <- get op "body" ;;
  opt_get body "invokeHostFunction".

(** [tx.meta.v3?.sorobanMeta?.returnValue]. *)
Definition returnValueOf (tx : JsVal) : Exc JsVal :=
  meta <- get tx "meta" ;;
  v3 <- get meta "v3" ;;
  sorobanMeta <- opt_get v3 "sorobanMeta" ;;
  opt_get sorobanMeta "returnValue".

(** Lines 188-198: the called function and its arguments. *)
Definition extractCall (tx : JsVal) : Stm unit :=
  operations <~ lift (operationsOf tx) ;;
  invokeOp <~ lift (array_find isInvokeOp operations) ;;
  if truthy invokeOp then
    hostFunction <~ lift (body <- get invokeOp "body" ;;
                          invoke <- get body "invokeHostFunction" ;;
                          get invoke "hostFunction") ;;
    invokeContract <~ lift (opt_get hostFunction "invokeContract") ;;
    if truthy invokeContract then
      functionName <~ lift (invokeContract <- get hostFunction "invokeContract" ;;
                            get invokeContract "functionName") ;;
      set_calledFunction (or functionName (JStr "invoke_contract")) ;;;
      callArgs <~ lift (invokeContract <- get hostFunction "invokeContract" ;;
                        get invokeContract "args") ;;
      set_args (or callArgs (JArr []))
    else skip
  else skip.

(** Lines 200-203: the return value. *)
Definition extractResult (tx : JsVal) : Stm unit :=
  returnValue <~ lift (returnValueOf tx) ;;
  if truthy returnValue then set_result returnValue else skip.

(** The body of the inner [try] block (lines 188-203). *)
Definition extract (tx : JsVal) : Stm unit :=
  extractCall tx ;;; extractResult tx.

(** Lines 174-179. *)
Definition signersOf (tx : JsVal) : Exc (list string) :=
  envelopeXdr <- get tx "envelopeXdr" ;;
  signed <- and_then envelopeXdr
              (envelope <- get tx "envelope" ;; opt_get envelope "signatures") ;;
  if truthy signed then ret ["(Signature validation required)"%string]
  else ret [].

(** Lines 174-220: the detail object built from a truthy [data.result]. *)
Definition detailsOf (tx : JsVal) : Exc TransactionDetails.t :=
  signers <- signersOf tx ;;
  resultMetaXdr <- get tx "resultMetaXdr" ;;
  decodable <- and_then resultMetaXdr (get tx "meta") ;;
  let locals :=
    if truthy decodable then try_warn (extract tx) unassigned else unassigned in
  id <- get tx "id" ;;
  ledger <- get tx "ledger" ;;
  createdAt <- get tx "createdAt" ;;
  status <- get tx "status" ;;
  envelope <- get tx "envelope" ;;
  meta <- get tx "meta" ;;
  ret (TransactionDetails.mk id ledger createdAt status signers
         (calledFunction locals) (args locals) (result locals)
         envelope meta).

(** Lines 166-220: what the [try] block does with the parsed answer. *)
Definition detailsOfData (data : JsVal) : Exc (option TransactionDetails.t) :=
  error <- get data "error" ;;
  if truthy error then ret None
  else
    tx <- get data "result" ;;
    if negb (truthy tx) then ret None
    else
      details <- detailsOf tx ;;
      ret (Some details).

(** The body of the [try] block of [fetchTransactionDetails]
    (lines 143-220); [None] is [null]. *)
Definition fetchTransactionDetails_try (env : Env) (txHash : string)
    : Exc (option TransactionDetails.t) :=
  response <- await (fetch env SOROBAN_RPC_URL (detailsRequest txHash)) ;;
  if negb (Response.ok response) then
    throw (Error (JStr ("HTTP error! Status: " ++ to_string (Response.status response))))
  else
    data <- Response.json response ;;
    detailsOfData data.

Definition fetchTransactionDetails (env : Env) (txHash : string)
    : option TransactionDetails.t :=
  try_catch (fetchTransactionDetails_try env txHash) (fun _ => None).

End TransactionFetcher.

(** *** The display helper [truncateHash] *)

Module TransactionDisplay.

(** An index argument of [substring], brought into [0 .. len]. *)
Definition clamp (len i : Z) : Z := Z.max 0 (Z.min i len).

(** [s.substring(start, stop)], and [s.substring(start)] when [stop] is
    [None]: both indices are clamped to the string, the smaller one is
    where the result starts.  A character is one code unit, as it is for
    the hexadecimal hashes shown. *)
Definition substring (s : string) (start : Z) (stop : option Z) : string :=
  let len := Z.of_nat (String.length s) in
  let first := clamp len start in
  let last :=
    match stop with
    | Some i => clamp len i
    | None => len
    end in
  let lo := Z.min first last in
  let hi := Z.max first last in
  String.substring (Z.to_nat lo) (Z.to_nat (hi - lo)) s.

(** [truncateHash] (lines 249-255); [isMobile] defaults to [false]. *)
Definition truncateHash (hash : string) (isMobile : bool) : string :=
  let len := Z.of_nat (String.length hash) in
  if (hash =? "")%string then "N/A"
  else if isMobile then
    substring hash 0 (Some 6) ++ "..." ++ substring hash (len - 4) None
  else
    substring hash 0 (Some 8) ++ "..." ++ substring hash (len - 6) None.

(** How many leading and trailing characters each mode keeps. *)
Definition kept (isMobile : bool) : nat * nat :=
  if isMobile then (6, 4)%nat else (8, 6)%nat.

End TransactionDisplay.

(* ================================================================== *)
(** ** [src/contexts/NetworkContext.tsx]                              *)
(* ================================================================== *)

Module NetworkContext.

(** [localStorage]: the stored entries, and whether the browser lets the
    page use the store at all (when it does not, every access throws). *)
Record Storage := mkStorage {
  accessible : bool;
  entries : list (string * string)
}.

Definition STORAGE_KEY : string := "escrow-viewer-network".

Definition setItem (k v : string) (s : Storage) : Exc Storage :=
  if accessible s then ret (mkStorage true ((k, v) :: entries s))
  else throw (Error (JStr "localStorage is not available")).

Fixpoint assoc (k : string) (l : list (string * string)) : option string :=
  match l with
  | [] => None
  | (k', v) :: rest => if (k =? k')%string then Some v else assoc k rest
  end.

Definition getItem (k : string) (s : Storage) : Exc (option string) :=
  if accessible s then ret (assoc k (entries s))
  else throw (Error (JStr "localStorage is not available")).

(** The provider: the [useState] cell and the store it writes to.
    [NetworkType] is erased; the cell holds a string. *)
Record Provider := mkProvider {
  currentNetwork : string;
  localStorage : Storage
}.

(** The effect run once after mounting (lines 21-31). *)
Definition restore (p : Provider) : Provider :=
  try_catch
    (savedNetwork <- getItem STORAGE_KEY (localStorage p) ;;
     ret (match savedNetwork with
          | Some saved =>
              if negb (saved =? "")%string
                 && ((saved =? "testnet")%string || (saved =? "mainnet")%string)
              then mkProvider saved (localStorage p)
              else p
          | None => p
          end))
    (fun _ => p).

(** [setNetwork] (lines 33-40): the cell is updated, then the store, whose
    failure is logged and dropped. *)
Definition setNetwork (network : string) (p : Provider) : Provider :=
  let p' := mkProvider network (localStorage p) in
  try_catch
    (store <- setItem STORAGE_KEY network (localStorage p') ;;
     ret (mkProvider network store))
    (fun _ => p').

(** [toggleNetwork] (lines 42-45).  The function is created anew by every
    render and closes over that render's [currentNetwork] constant,
    [rendered]; it runs on the provider state [p] of the time of the
    call. *)
Definition toggleNetwork (rendered : string) (p : Provider) : Provider :=
  let newNetwork :=
    if (rendered =? "testnet")%string then "mainnet" else "testnet" in
  setNetwork newNetwork p.

(** The [toggleNetwork] that the render of the state [p] puts in the
    context value (line 48). *)
Definition renderedToggle (p : Provider) : Provider -> Provider :=
  toggleNetwork (currentNetwork p).

(** The two values of [NetworkType]. *)
Definition validNetwork (network : string) : Prop :=
  network = "testnet" \/ network = "mainnet".

End NetworkContext.

Module NetworkProvider.

Import NetworkContext.

(** Mounting [NetworkProvider] (lines 18-31): the cell starts at
    [getDefaultNetwork()], a function of [lib/network-config] whose result
    is the argument [defaultNetwork] here, and the effect then reads the
    store. *)
Definition mount (defaultNetwork : string) (store : Storage) : Provider :=
  restore (mkProvider defaultNetwork store).

End NetworkProvider.

(* ================================================================== *)
(** ** Vocabulary of the specification                                *)
(* ================================================================== *)

Import TransactionFetcher.

(** A string is non-empty. *)
Definition nonEmpty (s : string) : Prop := s <> "".

(** [hay] contains [needle] as a substring. *)
Definition Contains (needle hay : string) : Prop :=
  exists before after, hay = before ++ needle ++ after.

(** The ways the transport can fail a listing request: the network call
    rejects, the status is not 2xx, the body is not JSON, or the answer
    carries an RPC error that is not recognised as a retention error (the
    client re-raises it, or trips on its message). *)
Inductive TransportFailure : FetchOutcome -> Prop :=
| network_exception reason :
    TransportFailure (Rejected reason)
| http_error response :
    Response.ok response = false ->
    TransportFailure (Resolved response)
| json_parse_failure response e :
    Response.ok response = true ->
    Response.json response = inl e ->
    TransportFailure (Resolved response)
| generic_rpc_error response data :
    Response.ok response = true ->
    Response.json response = inr data ->
    truthy (prop data "error") = true ->
    isRetentionError (prop data "error") <> inr true ->
    TransportFailure (Resolved response).

(** The transport answered with status 2xx and a JSON body [data]. *)
Definition Answered (o : FetchOutcome) (data : JsVal) : Prop :=
  exists response,
    o = Resolved response /\
    Response.ok response = true /\
    Response.json response = inr data.

(** A page is empty with zero ledger bounds, no further page, and the
    notice [notice]. *)
Definition emptyPage (notice : string) (page : TransactionResponse.t) : Prop :=
  TransactionResponse.transactions page = [] /\
  TransactionResponse.latestLedger page = JNum 0 /\
  TransactionResponse.oldestLedger page = JNum 0 /\
  TransactionResponse.hasMore page = false /\
  TransactionResponse.retentionNotice page = Some notice.

(** The cursor of a page is present: neither [undefined] nor [null]. *)
Definition cursorPresent (page : TransactionResponse.t) : Prop :=
  TransactionResponse.cursor page <> JUndefined /\
  TransactionResponse.cursor page <> JNull.

(** The invariant the data model states for a summary: a non-empty hash
    and a ledger sequence that is not negative. *)
Definition summaryInvariant (tx : TransactionMetadata.t) : Prop :=
  (exists hash, TransactionMetadata.txHash tx = JStr hash /\ nonEmpty hash) /\
  (exists seq, TransactionMetadata.ledger tx = JNum seq /\ 0 <= seq).

(** The same two conditions on a raw transaction of the RPC answer. *)
Definition rawInvariant (raw : JsVal) : Prop :=
  (exists hash, prop raw "id" = JStr hash /\ nonEmpty hash) /\
  (exists seq, prop raw "ledger" = JNum seq /\ 0 <= seq).

(** The raw transactions of an answer: the elements of
    [data.result.transactions] when that is an array. *)
Definition rawTransactions (data : JsVal) : list JsVal :=
  match prop (prop data "result") "transactions" with
  | JArr raws => raws
  | _ => []
  end.

(** [fetchTransactions] took the success path on the answer [data]: the
    request was sent and answered, [data] carries no error, and the
    listing was built from [data.result] without an exception. *)
Definition SuccessfulListing (env : Env) (contractId : string)
    (options : FetchTransactionsOptions.t) (data : JsVal) : Prop :=
  exists contractAddress page,
    Contract_contractId env contractId = inr contractAddress /\
    Answered (fetch env SOROBAN_RPC_URL
                (transactionsRequest contractAddress options)) data /\
    truthy (prop data "error") = false /\
    listingOf (prop data "result") = inr page.

(** The elements of [tx.envelope.v1.tx.operations] when that is an array. *)
Definition operationList (tx : JsVal) : list JsVal :=
  match prop (prop (prop (prop tx "envelope") "v1") "tx") "operations" with
  | JArr operations => operations
  | _ => []
  end.

(** An operation whose body is an invoke-host-function body. *)
Definition invokesHostFunction (op : JsVal) : bool :=
  truthy (prop (prop op "body") "invokeHostFunction").

(** The ways a detail request yields no transaction. *)
Inductive NoTransaction : FetchOutcome -> Prop :=
| detail_transport_failure reason :
    NoTransaction (Rejected reason)
| detail_http_error response :
    Response.ok response = false ->
    NoTransaction (Resolved response)
| detail_parse_failure response e :
    Response.ok response = true ->
    Response.json response = inl e ->
    NoTransaction (Resolved response)
| detail_rpc_error response data :
    Response.ok response = true ->
    Response.json response = inr data ->
    truthy (prop data "error") = true ->
    NoTransaction (Resolved response)
| detail_no_result response data :
    Response.ok response = true ->
    Response.json response = inr data ->
    truthy (prop data "result") = false ->
    NoTransaction (Resolved response).

(** The locals with which [detailsOf] fills the detail object. *)
Definition localsOf (tx : JsVal) : Locals :=
  if truthy (prop tx "resultMetaXdr") && truthy (prop tx "meta")
  then try_warn (extract tx) unassigned
  else unassigned.

(** *** Sample inputs *)

(** A world with the SDK's [Contract], in which every request settles as
    [o]. *)
Definition worldOf (o : FetchOutcome) : Env :=
  mkEnv (fun _ _ => o) StellarSdk.contractId.

(** A 200 answer with body [data]. *)
Definition answer (data : JsVal) : FetchOutcome :=
  Resolved (Response.mk 200 (ret data)).

(** A contract strkey: the SDK accepts it and gives it back. *)
Definition sampleContract : string :=
  "CDLZFC3SYJYDZT7K67VZ75HPJVIEUVNIXF47ZG2FB2RMQQVU2HHGCYSC".

(** An RPC error that mentions the retention window under another code. *)
Definition retentionAnswer : JsVal :=
  JObj [("jsonrpc", JStr "2.0"); ("id", JNum 1);
        ("error", JObj [("code", JNum (-32000));
                        ("message", JStr "start is before retention window")])].

(** An answer whose only transaction has an empty [id] and a negative
    [ledger]. *)
Definition oddAnswer : JsVal :=
  JObj [("jsonrpc", JStr "2.0"); ("id", JNum 1);
        ("result", JObj [
           ("transactions", JArr [
              JObj [("id", JStr ""); ("ledger", JNum (-1));
                    ("createdAt", JStr "t"); ("status", JStr "SUCCESS")]]);
           ("latestLedger", JNum 9); ("oldestLedger", JNum 1);
           ("cursor", JStr "9-1")])].

(** A well-formed answer with one transaction. *)
Definition plainAnswer : JsVal :=
  JObj [("jsonrpc", JStr "2.0"); ("id", JNum 1);
        ("result", JObj [
           ("transactions", JArr [
              JObj [("id", JStr "abc"); ("ledger", JNum 5);
                    ("createdAt", JStr "t"); ("status", JStr "SUCCESS")]]);
           ("latestLedger", JNum 9); ("oldestLedger", JNum 1)])].

(** An answer that carries an empty string as cursor. *)
Definition emptyCursorAnswer : JsVal :=
  JObj [("jsonrpc", JStr "2.0"); ("id", JNum 1);
        ("result", JObj [
           ("transactions", JArr [
              JObj [("id", JStr "abc"); ("ledger", JNum 5);
                    ("createdAt", JStr "t"); ("status", JStr "SUCCESS")]]);
           ("latestLedger", JNum 9); ("oldestLedger", JNum 1);
           ("cursor", JStr "")])].

(** An answer without a [result]. *)
Definition bareAnswer : JsVal := JObj [("jsonrpc", JStr "2.0"); ("id", JNum 2)].

(** A payment: decodable, with one operation that is not an invocation. *)
Definition paymentAnswer : JsVal :=
  JObj [("jsonrpc", JStr "2.0"); ("id", JNum 2);
        ("result", JObj [
           ("id", JStr "abc"); ("ledger", JNum 5); ("createdAt", JStr "t");
           ("status", JStr "SUCCESS");
           ("envelopeXdr", JStr "AAAA"); ("resultMetaXdr", JStr "BBBB");
           ("envelope", JObj [
              ("v1", JObj [
                 ("tx", JObj [
                    ("operations", JArr [
                       JObj [("body", JObj [("payment", JObj [])])]])])])]);
           ("meta", JObj [("v3", JObj [])])])].

(** A contract invocation whose payload carries no [meta]. *)
Definition invokeWithoutMetaAnswer : JsVal :=
  JObj [("jsonrpc", JStr "2.0"); ("id", JNum 2);
        ("result", JObj [
           ("id", JStr "abc"); ("ledger", JNum 5); ("createdAt", JStr "t");
           ("status", JStr "SUCCESS");
           ("envelopeXdr", JStr "AAAA"); ("resultMetaXdr", JStr "BBBB");
           ("envelope", JObj [
              ("v1", JObj [
                 ("tx", JObj [
                    ("operations", JArr [
                       JObj [("body", JObj [
                          ("invokeHostFunction", JObj [
                             ("hostFunction", JObj [
                                ("invokeContract", JObj [
                                   ("functionName", JStr "deposit");
                                   ("args", JArr [JNum 1])])])])])]])])])])])].

(** A provider on testnet with an empty store that accepts writes. *)
Definition testnetProvider : NetworkContext.Provider :=
  NetworkContext.mkProvider "testnet" (NetworkContext.mkStorage true []).

(** A provider on mainnet whose store refuses every access. *)
Definition mainnetBlocked : NetworkContext.Provider :=
  NetworkContext.mkProvider "mainnet" (NetworkContext.mkStorage false []).

(* ================================================================== *)
(** ** Basic facts about the JavaScript operators                     *)
(* ================================================================== *)

Lemma get_truthy v k : truthy v = true -> get v k = inr (prop v k).
Proof. destruct v; simpl; intros H; try discriminate; reflexivity. Qed.

Lemma prop_defined_is_object v k :
  prop v k <> JUndefined -> exists fields, v = JObj fields.
Proof.
  destruct v; simpl; intros H; try (exfalso; apply H; reflexivity).
  eexists; reflexivity.
Qed.

Lemma prop_truthy_is_object v k :
  truthy (prop v k) = true -> exists fields, v = JObj fields.
Proof.
  intros H. apply (prop_defined_is_object v k).
  intros E. rewrite E in H. discriminate.
Qed.

Lemma get_object fields k : get (JObj fields) k = inr (lookup k fields).
Proof. reflexivity. Qed.

(** A property read throws only on [null] and [undefined], and otherwise
    yields [prop]. *)
Lemma get_inr v k x : get v k = inr x -> x = prop v k.
Proof. destruct v; simpl; intros H; inversion H; reflexivity. Qed.

Lemma opt_get_total v k : opt_get v k = inr (prop v k).
Proof. destruct v; reflexivity. Qed.

Lemma prefix_app needle rest : prefix needle (needle ++ rest) = true.
Proof.
  induction needle as [|c needle IH]; simpl.
  - destruct rest; reflexivity.
  - destruct (ascii_dec c c) as [_|N]; [exact IH | contradiction].
Qed.

Lemma includes_cons needle c hay :
  includes needle (String c hay) =
  if prefix needle (String c hay) then true else includes needle hay.
Proof. reflexivity. Qed.

Lemma includes_nil needle : includes needle "" = prefix needle "".
Proof. cbn [includes]. destruct (prefix needle ""); reflexivity. Qed.

Lemma includes_app needle before after :
  includes needle (before ++ needle ++ after) = true.
Proof.
  induction before as [|c before IH].
  - simpl. destruct needle as [|d needle]; simpl.
    + destruct after; reflexivity.
    + destruct (ascii_dec d d) as [_|N]; [|contradiction].
      rewrite prefix_app.
      reflexivity.
  - cbn [append]. rewrite includes_cons, IH.
    destruct (prefix needle (String c (before ++ needle ++ after))); reflexivity.
Qed.

Lemma prefix_split needle hay :
  prefix needle hay = true -> exists rest, hay = needle ++ rest.
Proof.
  revert hay. induction needle as [|c needle IH]; intros hay H.
  - exists hay. reflexivity.
  - destruct hay as [|d hay]; simpl in H; [discriminate|].
    destruct (ascii_dec c d) as [->|]; [|discriminate].
    destruct (IH hay H) as [rest ->]. exists rest. reflexivity.
Qed.

(** [includes] decides substring containment. *)
Lemma includes_spec needle hay :
  includes needle hay = true <-> Contains needle hay.
Proof.
  unfold Contains. split.
  - induction hay as [|c hay IH].
    + rewrite includes_nil. intros P.
      destruct (prefix_split _ _ P) as [rest E].
      exists "", rest. exact E.
    + rewrite includes_cons. destruct (prefix needle (String c hay)) eqn:P.
      * intros _. destruct (prefix_split _ _ P) as [rest E].
        exists "", rest. exact E.
      * intros H. destruct (IH H) as (before & after & ->).
        exists (String c before), after. reflexivity.
  - intros (before & after & ->). apply includes_app.
Qed.

(* ================================================================== *)
(** ** The listing: [fetchTransactions]                               *)
(* ================================================================== *)

Section Listing.

Variable env : Env.
Variable contractId : string.
Variable options : FetchTransactionsOptions.t.

(** Whatever the [try] block throws, the caller gets the graceful
    response. *)
Lemma fetchTransactions_caught e :
  fetchTransactions_try env contractId options = inl e ->
  fetchTransactions env contractId options = gracefulResponse.
Proof. unfold fetchTransactions. intros ->. reflexivity. Qed.

Lemma fetchTransactions_returned page :
  fetchTransactions_try env contractId options = inr page ->
  fetchTransactions env contractId options = page.
Proof. unfold fetchTransactions. intros ->. reflexivity. Qed.

(** Once the request is answered, the [try] block is [listingOfData]. *)
Lemma fetchTransactions_try_answered contractAddress data :
  Contract_contractId env contractId = inr contractAddress ->
  Answered (fetch env SOROBAN_RPC_URL
              (transactionsRequest contractAddress options)) data ->
  fetchTransactions_try env contractId options = listingOfData data.
Proof.
  intros HC (response & HF & Hok & HJ).
  unfold fetchTransactions_try.
  rewrite HC. cbn [bind]. rewrite HF. cbn [await ret bind].
  rewrite Hok. cbn [negb]. rewrite HJ. reflexivity.
Qed.

(** The three objects [fetchTransactions] can return. *)
Lemma fetchTransactions_cases :
  fetchTransactions env contractId options = gracefulResponse \/
  fetchTransactions env contractId options = retentionResponse \/
  exists result,
    listingOf result = inr (fetchTransactions env contractId options).
Proof.
  destruct (fetchTransactions_try env contractId options) as [e|page] eqn:T.
  - left. exact (fetchTransactions_caught e T).
  - right. rewrite (fetchTransactions_returned page T).
    unfold fetchTransactions_try in T.
    destruct (Contract_contractId env contractId) as [?|contractAddress];
      [discriminate|].
    cbn [bind] in T.
    destruct (fetch env SOROBAN_RPC_URL _) as [?|response]; [discriminate|].
    cbn [await ret bind] in T.
    destruct (negb (Response.ok response)); [discriminate|].
    destruct (Response.json response) as [?|data]; [discriminate|].
    cbn [bind] in T. unfold listingOfData in T.
    destruct (get data "error") as [?|error]; [discriminate|].
    cbn [bind] in T.
    destruct (truthy error).
    + destruct (isRetentionError error) as [?|[|]]; cbn [bind] in T.
      * discriminate.
      * left. inversion T. reflexivity.
      * destruct (get error "message"); discriminate.
    + destruct (get data "result") as [?|result]; [discriminate|].
      cbn [bind] in T. right. exists result. exact T.
Qed.

End Listing.

(** The page [listingOf] builds, field by field. *)
Lemma listingOf_inr result page :
  listingOf result = inr page ->
  exists transactions,
    array_map toMetadata (or (prop result "transactions") (JArr [])) = inr transactions /\
    page = TransactionResponse.mk
             transactions
             (or (prop result "latestLedger") (JNum 0))
             (or (prop result "oldestLedger") (JNum 0))
             (prop result "cursor")
             (truthy (prop result "cursor"))
             (match transactions with
              | [] => Some EMPTY_NOTICE
              | _ :: _ => None
              end).
Proof.
  unfold listingOf. intros H.
  destruct (get result "transactions") as [?|raw] eqn:G1; [discriminate|].
  apply get_inr in G1. subst raw. cbn [bind] in H.
  destruct (array_map toMetadata _) as [?|transactions]; [discriminate|].
  cbn [bind] in H.
  destruct (get result "latestLedger") as [?|latest] eqn:G2; [discriminate|].
  apply get_inr in G2. subst latest. cbn [bind] in H.
  destruct (get result "oldestLedger") as [?|oldest] eqn:G3; [discriminate|].
  apply get_inr in G3. subst oldest. cbn [bind] in H.
  destruct (get result "cursor") as [?|cursor] eqn:G4; [discriminate|].
  apply get_inr in G4. subst cursor. cbn [bind ret] in H.
  exists transactions. split; [reflexivity|]. inversion H. reflexivity.
Qed.

(** [map] keeps the order and the length, and copies five properties of
    each raw transaction. *)
Lemma mapM_toMetadata raws transactions :
  mapM toMetadata raws = inr transactions ->
  Forall2 (fun raw tx =>
             tx = TransactionMetadata.mk
                    (prop raw "id") (prop raw "ledger") (prop raw "createdAt")
                    (prop raw "status") (prop raw "applicationOrder"))
          raws transactions.
Proof.
  revert transactions.
  induction raws as [|raw raws IH]; intros transactions H.
  - inversion H. constructor.
  - cbn [mapM] in H.
    destruct (toMetadata raw) as [?|tx] eqn:M; [discriminate|].
    cbn [bind] in H.
    destruct (mapM toMetadata raws) as [?|rest]; [discriminate|].
    cbn [bind ret] in H. inversion H; subst transactions.
    constructor; [|apply IH; reflexivity].
    unfold toMetadata in M.
    destruct raw; cbn in M; try discriminate; inversion M; reflexivity.
Qed.

Lemma array_map_or_inr {B} (f : JsVal -> Exc B) v ys :
  array_map f (or v (JArr [])) = inr ys ->
  mapM f (match v with JArr elems => elems | _ => [] end) = inr ys.
Proof.
  unfold or. destruct v as [| |b|n|t|elems|fields]; cbn; try (intros H; exact H).
  - destruct b; [discriminate|intros H; exact H].
  - destruct (n =? 0); cbn; [intros H; exact H|discriminate].
  - destruct (t =? "")%string; cbn; [intros H; exact H|discriminate].
  - discriminate.
Qed.

Lemma toMetadata_object fields :
  toMetadata (JObj fields) =
  inr (TransactionMetadata.mk
         (lookup "id" fields) (lookup "ledger" fields) (lookup "createdAt" fields)
         (lookup "status" fields) (lookup "applicationOrder" fields)).
Proof. reflexivity. Qed.

(** A result that is neither [null] nor [undefined] and whose raw
    transactions can be mapped gives a page. *)
Lemma listingOf_object fields transactions :
  array_map toMetadata (or (lookup "transactions" fields) (JArr [])) = inr transactions ->
  listingOf (JObj fields) =
  inr (TransactionResponse.mk
         transactions
         (or (lookup "latestLedger" fields) (JNum 0))
         (or (lookup "oldestLedger" fields) (JNum 0))
         (lookup "cursor" fields)
         (truthy (lookup "cursor" fields))
         (match transactions with
          | [] => Some EMPTY_NOTICE
          | _ :: _ => None
          end)).
Proof.
  intros H. unfold listingOf. rewrite get_object. cbn [bind].
  rewrite H. reflexivity.
Qed.

(** On an answer without an error, [listingOfData] is [listingOf] of its
    result whenever that yields a page. *)
Lemma listingOfData_success data page :
  truthy (prop data "error") = false ->
  listingOf (prop data "result") = inr page ->
  listingOfData data = inr page.
Proof.
  intros HE HL.
  assert (HD : exists fields, data = JObj fields).
  { apply (prop_defined_is_object data "result").
    intros E. rewrite E in HL. discriminate HL. }
  destruct HD as [fields ->].
  unfold listingOfData. rewrite get_object. cbn [bind].
  cbn [prop] in HE, HL. rewrite HE. rewrite get_object. exact HL.
Qed.

Lemma successfulListing_page env contractId options data :
  SuccessfulListing env contractId options data ->
  listingOf (prop data "result") = inr (fetchTransactions env contractId options).
Proof.
  intros (contractAddress & page & HC & HA & HE & HL).
  rewrite (fetchTransactions_returned env contractId options page); [exact HL|].
  rewrite (fetchTransactions_try_answered env contractId options contractAddress data HC HA).
  apply listingOfData_success; assumption.
Qed.

(** The items of a successful listing are the raw transactions of the
    answer, in order, with [id] renamed to [txHash]. *)
Lemma successfulListing_items env contractId options data :
  SuccessfulListing env contractId options data ->
  Forall2 (fun raw tx =>
             tx = TransactionMetadata.mk
                    (prop raw "id") (prop raw "ledger") (prop raw "createdAt")
                    (prop raw "status") (prop raw "applicationOrder"))
          (rawTransactions data)
          (TransactionResponse.transactions (fetchTransactions env contractId options)).
Proof.
  intros S. apply successfulListing_page in S.
  destruct (listingOf_inr _ _ S) as (transactions & HM & ->).
  cbn [TransactionResponse.transactions].
  apply mapM_toMetadata. unfold rawTransactions.
  apply array_map_or_inr. exact HM.
Qed.

Lemma gracefulResponse_empty :
  emptyPage UNABLE_NOTICE gracefulResponse /\ nonEmpty UNABLE_NOTICE.
Proof. unfold emptyPage, nonEmpty. repeat split; discriminate. Qed.

Lemma retentionResponse_empty :
  emptyPage RETENTION_NOTICE retentionResponse /\ nonEmpty RETENTION_NOTICE.
Proof. unfold emptyPage, nonEmpty. repeat split; discriminate. Qed.

(** C1: whatever the contract identifier and the options, when the request
    cannot be sent or the transport fails (the network call rejects, the
    status is not 2xx, the body does not parse, or a generic RPC error is
    re-raised), [fetchTransactions] does not raise: it returns the page with
    no items, ledger bounds 0, [hasMore] false and a non-empty notice. *)
Theorem fetchTransactions_transport_failure env contractId options :
  (forall contractAddress,
      Contract_contractId env contractId = inr contractAddress ->
      TransportFailure (fetch env SOROBAN_RPC_URL
                          (transactionsRequest contractAddress options))) ->
  emptyPage UNABLE_NOTICE (fetchTransactions env contractId options) /\
  nonEmpty UNABLE_NOTICE.
Proof.
  intros H.
  cut (exists e, fetchTransactions_try env contractId options = inl e).
  { intros [e T]. rewrite (fetchTransactions_caught _ _ _ e T).
    exact gracefulResponse_empty. }
  unfold fetchTransactions_try.
  destruct (Contract_contractId env contractId) as [e|contractAddress];
    [exists e; reflexivity|].
  specialize (H contractAddress eq_refl). cbn [bind].
  inversion H as [reason E|response Hok E|response e Hok HJ E
                  |response data Hok HJ HT HR E]; cbn [await ret throw bind].
  - exists reason. reflexivity.
  - rewrite Hok. eexists. reflexivity.
  - rewrite Hok, HJ. exists e. reflexivity.
  - rewrite Hok, HJ. cbn [negb bind]. unfold listingOfData.
    destruct (prop_truthy_is_object _ _ HT) as [fields ->].
    rewrite get_object. cbn [bind]. cbn [prop] in HT, HR. rewrite HT.
    destruct (isRetentionError (lookup "error" fields)) as [e|[|]]; cbn [bind].
    + exists e. reflexivity.
    + contradiction HR. reflexivity.
    + destruct (get (lookup "error" fields) "message") as [e|message];
        cbn [bind throw]; eexists; reflexivity.
Qed.

Lemma fetchTransactions_transport_failure_witness :
  emptyPage UNABLE_NOTICE
    (fetchTransactions
       (worldOf (Resolved (Response.mk 503 (inl (SyntaxError "Unexpected token <")))))
       sampleContract FetchTransactionsOptions.empty) /\
  nonEmpty UNABLE_NOTICE.
Proof.
  apply (fetchTransactions_transport_failure
           (worldOf (Resolved (Response.mk 503 (inl (SyntaxError "Unexpected token <")))))
           sampleContract FetchTransactionsOptions.empty).
  intros contractAddress _. apply http_error. reflexivity.
Defined.

(** The retention test on an error object, in the terms of the
    specification. *)
Lemma isRetentionError_object fields :
  (lookup "code" fields = JNum (-32600) \/
   exists message,
     lookup "message" fields = JStr message /\ Contains "retention" message) ->
  isRetentionError (JObj fields) = inr true.
Proof.
  intros H. unfold isRetentionError. rewrite get_object. cbn [bind].
  destruct H as [-> | (message & HM & HC)]; [reflexivity|].
  destruct (strict_eq_num (lookup "code" fields) (-32600)); [reflexivity|].
  rewrite get_object. cbn [bind]. rewrite HM. cbn [opt_call_includes ret bind].
  apply includes_spec in HC. cbn [truthy]. rewrite HC. reflexivity.
Qed.

(** C2: when the RPC answer carries an error object whose code is -32600
    or whose message contains "retention", then for every option record
    (every requested limit) [fetchTransactions] returns the empty page with
    the retention notice, ledger bounds 0 and [hasMore] false. *)
Theorem fetchTransactions_retention_error
    env contractId options contractAddress data fields :
  Contract_contractId env contractId = inr contractAddress ->
  Answered (fetch env SOROBAN_RPC_URL
              (transactionsRequest contractAddress options)) data ->
  prop data "error" = JObj fields ->
  (prop (JObj fields) "code" = JNum (-32600) \/
   exists message,
     prop (JObj fields) "message" = JStr message /\
     Contains "retention" message) ->
  emptyPage RETENTION_NOTICE (fetchTransactions env contractId options) /\
  nonEmpty RETENTION_NOTICE.
Proof.
  intros HC HA HE HR.
  rewrite (fetchTransactions_returned env contractId options retentionResponse).
  - exact retentionResponse_empty.
  - rewrite (fetchTransactions_try_answered _ _ _ _ _ HC HA).
    assert (HD : exists dataFields, data = JObj dataFields).
    { apply (prop_defined_is_object data "error"). rewrite HE. discriminate. }
    destruct HD as [dataFields ->].
    unfold listingOfData. rewrite get_object. cbn [bind].
    cbn [prop] in HE. rewrite HE. cbn [truthy].
    rewrite (isRetentionError_object fields HR). reflexivity.
Qed.

Lemma fetchTransactions_retention_error_witness :
  emptyPage RETENTION_NOTICE
    (fetchTransactions (worldOf (answer retentionAnswer)) sampleContract
       (FetchTransactionsOptions.mk None None (Some 7))) /\
  nonEmpty RETENTION_NOTICE.
Proof.
  apply (fetchTransactions_retention_error
           (worldOf (answer retentionAnswer)) sampleContract
           (FetchTransactionsOptions.mk None None (Some 7))
           sampleContract retentionAnswer
           [("code", JNum (-32000));
            ("message", JStr "start is before retention window")]).
  - reflexivity.
  - eexists. repeat split; reflexivity.
  - reflexivity.
  - right. exists "start is before retention window". split; [reflexivity|].
    exists "start is before ", " window". reflexivity.
Defined.

(** C3: in every successful listing built from a well-formed answer (each
    raw transaction has a non-empty string [id] and a [ledger] that is a
    number at least 0), every item has a non-empty hash and a ledger
    sequence at least 0. *)
Theorem listing_invariant_from_raw env contractId options data :
  SuccessfulListing env contractId options data ->
  Forall rawInvariant (rawTransactions data) ->
  Forall summaryInvariant
    (TransactionResponse.transactions (fetchTransactions env contractId options)).
Proof.
  intros S. apply successfulListing_items in S.
  induction S as [|raw tx raws transactions E _ IH]; intros H.
  - constructor.
  - inversion H as [|? ? HR HRs]; subst.
    constructor; [|apply IH; exact HRs].
    exact HR.
Qed.

Lemma listing_invariant_from_raw_witness :
  Forall summaryInvariant
    (TransactionResponse.transactions
       (fetchTransactions (worldOf (answer plainAnswer)) sampleContract
          FetchTransactionsOptions.empty)).
Proof.
  apply (listing_invariant_from_raw (worldOf (answer plainAnswer)) sampleContract
           FetchTransactionsOptions.empty plainAnswer).
  - exists sampleContract. eexists. repeat split.
    eexists. repeat split; reflexivity.
  - constructor; [|constructor]. split.
    + exists "abc". split; [reflexivity|discriminate].
    + exists 5. split; [reflexivity|lia].
Defined.

(** In every page, [hasMore] is the truthiness of [cursor], and the notice
    is set exactly when there is no item. *)
(** The hypothesis on the raw transactions carries the invariant: the
    client copies [id] and [ledger] and checks neither, so the listing
    built from [oddAnswer] holds an item with an empty hash and
    ledger -1. *)
Lemma listing_copies_unchecked :
  TransactionResponse.transactions
    (fetchTransactions (worldOf (answer oddAnswer)) sampleContract
       FetchTransactionsOptions.empty) =
  [TransactionMetadata.mk (JStr "") (JNum (-1)) (JStr "t") (JStr "SUCCESS")
     JUndefined].
Proof. vm_compute. reflexivity. Qed.

Lemma fetchTransactions_page_shape env contractId options :
  let page := fetchTransactions env contractId options in
  TransactionResponse.hasMore page = truthy (TransactionResponse.cursor page) /\
  match TransactionResponse.transactions page with
  | [] => exists notice,
      TransactionResponse.retentionNotice page = Some notice /\ nonEmpty notice
  | _ :: _ => TransactionResponse.retentionNotice page = None
  end.
Proof.
  cbv zeta.
  destruct (fetchTransactions_cases env contractId options)
    as [-> | [-> | [result HL]]].
  - split; [reflexivity|]. exists UNABLE_NOTICE. split; [reflexivity|discriminate].
  - split; [reflexivity|]. exists RETENTION_NOTICE. split; [reflexivity|discriminate].
  - destruct (listingOf_inr _ _ HL) as (transactions & _ & ->).
    split; [reflexivity|]. cbn.
    destruct transactions; [|reflexivity].
    exists EMPTY_NOTICE. split; [reflexivity|discriminate].
Qed.

(** C4, as stated, fails: on [emptyCursorAnswer] the page has a cursor (the
    empty string) and [hasMore] is false. *)
Lemma hasMore_iff_cursor_counterexample :
  let page := fetchTransactions (worldOf (answer emptyCursorAnswer))
                sampleContract FetchTransactionsOptions.empty in
  ~ (TransactionResponse.hasMore page = true <-> cursorPresent page).
Proof.
  cbv zeta.
  replace (fetchTransactions (worldOf (answer emptyCursorAnswer))
             sampleContract FetchTransactionsOptions.empty)
    with (TransactionResponse.mk
            [TransactionMetadata.mk (JStr "abc") (JNum 5) (JStr "t")
               (JStr "SUCCESS") JUndefined]
            (JNum 9) (JNum 1) (JStr "") false None)
    by (vm_compute; reflexivity).
  unfold cursorPresent.
  cbn [TransactionResponse.hasMore TransactionResponse.cursor].
  intros [_ H].
  assert (C : false = true) by (apply H; split; discriminate).
  discriminate C.
Qed.

(** C4, amended: in every page [fetchTransactions] returns, [hasMore] is
    true exactly when the cursor is truthy (present, and not [null],
    [false], [0] or the empty string); so [hasMore] true implies that a
    cursor is present, and a page without cursor has [hasMore] false. *)
Theorem hasMore_iff_cursor_truthy env contractId options :
  let page := fetchTransactions env contractId options in
  (TransactionResponse.hasMore page = true <->
   truthy (TransactionResponse.cursor page) = true) /\
  (TransactionResponse.hasMore page = true -> cursorPresent page) /\
  (~ cursorPresent page -> TransactionResponse.hasMore page = false).
Proof.
  cbv zeta.
  destruct (fetchTransactions_page_shape env contractId options) as [H _].
  unfold cursorPresent. rewrite H.
  destruct (TransactionResponse.cursor (fetchTransactions env contractId options));
    cbn; repeat split; intros; try discriminate; try assumption; try reflexivity.
  all: match goal with N : ~ _ |- _ => exfalso; apply N; split; discriminate end.
Qed.

(** C5: in every page [fetchTransactions] returns (success, retention or
    fallback), an empty item list comes with a non-empty notice, and a
    non-empty item list comes with no notice. *)
Theorem retentionNotice_iff_empty env contractId options :
  let page := fetchTransactions env contractId options in
  (TransactionResponse.transactions page = [] ->
   exists notice,
     TransactionResponse.retentionNotice page = Some notice /\ nonEmpty notice) /\
  (TransactionResponse.transactions page <> [] ->
   TransactionResponse.retentionNotice page = None).
Proof.
  cbv zeta.
  destruct (fetchTransactions_page_shape env contractId options) as [_ H].
  destruct (TransactionResponse.transactions (fetchTransactions env contractId options)).
  - split; [intros _; exact H|]. intros N. contradiction N. reflexivity.
  - split; [discriminate|]. intros _. exact H.
Qed.

(** C8: a well-formed success answer whose result holds exactly one raw
    transaction with id "abc", ledger 5, createdAt "t" and status
    "SUCCESS" yields a listing with exactly one item: hash "abc", ledger
    sequence 5, creation time "t", status "SUCCESS", and the raw
    [applicationOrder] passed through. *)
Theorem fetchTransactions_one_transaction
    env contractId options contractAddress data raw :
  Contract_contractId env contractId = inr contractAddress ->
  Answered (fetch env SOROBAN_RPC_URL
              (transactionsRequest contractAddress options)) data ->
  truthy (prop data "error") = false ->
  prop (prop data "result") "transactions" = JArr [raw] ->
  prop raw "id" = JStr "abc" ->
  prop raw "ledger" = JNum 5 ->
  prop raw "createdAt" = JStr "t" ->
  prop raw "status" = JStr "SUCCESS" ->
  TransactionResponse.transactions (fetchTransactions env contractId options) =
  [TransactionMetadata.mk (JStr "abc") (JNum 5) (JStr "t") (JStr "SUCCESS")
     (prop raw "applicationOrder")].
Proof.
  intros HC HA HE HT Hid Hledger Hcreated Hstatus.
  assert (HR : exists fields, prop data "result" = JObj fields).
  { apply (prop_defined_is_object _ "transactions"). rewrite HT. discriminate. }
  destruct HR as [fields HR].
  assert (HO : exists rawFields, raw = JObj rawFields).
  { apply (prop_defined_is_object _ "id"). rewrite Hid. discriminate. }
  destruct HO as [rawFields ->].
  rewrite HR in HT. cbn [prop] in HT.
  assert (HL : listingOf (prop data "result") = inr
            (TransactionResponse.mk
               [TransactionMetadata.mk
                  (lookup "id" rawFields) (lookup "ledger" rawFields)
                  (lookup "createdAt" rawFields) (lookup "status" rawFields)
                  (lookup "applicationOrder" rawFields)]
               (or (lookup "latestLedger" fields) (JNum 0))
               (or (lookup "oldestLedger" fields) (JNum 0))
               (lookup "cursor" fields)
               (truthy (lookup "cursor" fields))
               None)).
  { rewrite HR.
    apply (listingOf_object fields
             [TransactionMetadata.mk
                (lookup "id" rawFields) (lookup "ledger" rawFields)
                (lookup "createdAt" rawFields) (lookup "status" rawFields)
                (lookup "applicationOrder" rawFields)]).
    rewrite HT. reflexivity. }
  rewrite (fetchTransactions_returned env contractId options _
             (eq_trans
                (fetchTransactions_try_answered _ _ _ _ _ HC HA)
                (listingOfData_success _ _ HE HL))).
  cbn [TransactionResponse.transactions prop] in *.
  rewrite Hid, Hledger, Hcreated, Hstatus. reflexivity.
Qed.

Lemma fetchTransactions_one_transaction_witness :
  TransactionResponse.transactions
    (fetchTransactions (worldOf (answer plainAnswer)) sampleContract
       FetchTransactionsOptions.empty) =
  [TransactionMetadata.mk (JStr "abc") (JNum 5) (JStr "t") (JStr "SUCCESS")
     JUndefined].
Proof.
  apply (fetchTransactions_one_transaction
           (worldOf (answer plainAnswer)) sampleContract
           FetchTransactionsOptions.empty sampleContract plainAnswer
           (JObj [("id", JStr "abc"); ("ledger", JNum 5);
                  ("createdAt", JStr "t"); ("status", JStr "SUCCESS")])).
  - reflexivity.
  - eexists. repeat split; reflexivity.
  - reflexivity.
  - reflexivity.
  - reflexivity.
  - reflexivity.
  - reflexivity.
  - reflexivity.
Defined.

(* ================================================================== *)
(** ** The detail: [fetchTransactionDetails]                          *)
(* ================================================================== *)

Lemma fetchTransactionDetails_caught env txHash e :
  fetchTransactionDetails_try env txHash = inl e ->
  fetchTransactionDetails env txHash = None.
Proof. unfold fetchTransactionDetails. intros ->. reflexivity. Qed.

Lemma fetchTransactionDetails_try_answered env txHash data :
  Answered (fetch env SOROBAN_RPC_URL (detailsRequest txHash)) data ->
  fetchTransactionDetails_try env txHash = detailsOfData data.
Proof.
  intros (response & HF & Hok & HJ).
  unfold fetchTransactionDetails_try.
  rewrite HF. cbn [await ret bind]. rewrite Hok. cbn [negb]. rewrite HJ.
  reflexivity.
Qed.

(** C6: [fetchTransactionDetails] returns [null], and does not throw,
    when the transport fails (rejected call, status outside 2xx, body that
    does not parse), when the answer carries an error, and when the answer
    has no result payload. *)
Theorem fetchTransactionDetails_not_found env txHash :
  NoTransaction (fetch env SOROBAN_RPC_URL (detailsRequest txHash)) ->
  fetchTransactionDetails env txHash = None.
Proof.
  intros H. unfold fetchTransactionDetails, fetchTransactionDetails_try.
  inversion H as [reason E|response Hok E|response e Hok HJ E
                  |response data Hok HJ HT E|response data Hok HJ HT E];
    cbn [await ret throw bind try_catch].
  - reflexivity.
  - rewrite Hok. reflexivity.
  - rewrite Hok, HJ. reflexivity.
  - rewrite Hok, HJ. cbn [negb bind]. unfold detailsOfData.
    destruct (prop_truthy_is_object _ _ HT) as [fields ->].
    rewrite get_object. cbn [bind]. cbn [prop] in HT. rewrite HT. reflexivity.
  - rewrite Hok, HJ. cbn [negb bind]. unfold detailsOfData.
    destruct (get data "error") as [?|error] eqn:GE; [reflexivity|].
    cbn [bind]. destruct (truthy error); [reflexivity|].
    destruct (get data "result") as [?|tx] eqn:GR; [reflexivity|].
    apply get_inr in GR. subst tx. cbn [bind]. rewrite HT. reflexivity.
Qed.

Lemma fetchTransactionDetails_not_found_witness :
  fetchTransactionDetails (worldOf (answer bareAnswer)) "abc" = None.
Proof.
  apply (fetchTransactionDetails_not_found (worldOf (answer bareAnswer)) "abc").
  apply (detail_no_result _ bareAnswer); reflexivity.
Defined.

Lemma and_then_truthy a b :
  exists v, and_then a (inr b) = inr v /\ truthy v = truthy a && truthy b.
Proof.
  unfold and_then. destruct (truthy a) eqn:T.
  - exists b. split; reflexivity.
  - exists a. split; [reflexivity|]. exact T.
Qed.

(** On a truthy result [detailsOf] does not throw, and copies [id],
    [ledger], [createdAt], [status], [envelope] and [meta]. *)
Lemma detailsOf_truthy tx :
  truthy tx = true ->
  exists signers,
    detailsOf tx =
    inr (TransactionDetails.mk
           (prop tx "id") (prop tx "ledger") (prop tx "createdAt")
           (prop tx "status") signers
           (calledFunction (localsOf tx)) (args (localsOf tx))
           (result (localsOf tx))
           (prop tx "envelope") (prop tx "meta")).
Proof.
  intros T. unfold detailsOf, signersOf.
  rewrite !(get_truthy tx _ T). cbn [bind].
  rewrite (opt_get_total (prop tx "envelope") "signatures").
  destruct (and_then_truthy (prop tx "envelopeXdr")
              (prop (prop tx "envelope") "signatures")) as (signed & -> & _).
  cbn [bind].
  destruct (and_then_truthy (prop tx "resultMetaXdr") (prop tx "meta"))
    as (decodable & -> & HD).
  unfold localsOf. rewrite <- HD.
  destruct (truthy signed); cbn [bind ret]; eexists; reflexivity.
Qed.

(** With an answer that has a truthy result and no error, the detail is
    the one [detailsOf] builds. *)
Lemma fetchTransactionDetails_found env txHash data :
  Answered (fetch env SOROBAN_RPC_URL (detailsRequest txHash)) data ->
  truthy (prop data "error") = false ->
  truthy (prop data "result") = true ->
  exists signers,
    fetchTransactionDetails env txHash =
    Some (let tx := prop data "result" in
          TransactionDetails.mk
            (prop tx "id") (prop tx "ledger") (prop tx "createdAt")
            (prop tx "status") signers
            (calledFunction (localsOf tx)) (args (localsOf tx))
            (result (localsOf tx))
            (prop tx "envelope") (prop tx "meta")).
Proof.
  intros HA HE HT.
  destruct (detailsOf_truthy _ HT) as [signers HD]. exists signers.
  unfold fetchTransactionDetails.
  rewrite (fetchTransactionDetails_try_answered env txHash data HA).
  destruct (prop_truthy_is_object _ _ HT) as [fields ->].
  unfold detailsOfData. rewrite get_object. cbn [bind].
  cbn [prop] in HE, HT, HD |- *. rewrite HE. rewrite get_object. cbn [bind].
  rewrite HT. cbn [negb]. rewrite HD. reflexivity.
Qed.

Lemma isInvokeOp_inr op v :
  isInvokeOp op = inr v -> truthy v = invokesHostFunction op.
Proof.
  unfold isInvokeOp, invokesHostFunction. intros H.
  destruct (get op "body") as [?|body] eqn:G; [discriminate|].
  apply get_inr in G. subst body. cbn [bind] in H.
  rewrite opt_get_total in H. inversion H. reflexivity.
Qed.

(** [find] over operations none of which invokes a host function finds
    nothing (or throws on a [null] element). *)
Lemma findM_no_invoke operations :
  (forall op, In op operations -> invokesHostFunction op = false) ->
  findM isInvokeOp operations = inr JUndefined \/
  exists e, findM isInvokeOp operations = inl e.
Proof.
  induction operations as [|op operations IH]; intros H.
  - left. reflexivity.
  - cbn [findM].
    destruct (isInvokeOp op) as [e|v] eqn:I; cbn [bind].
    + right. exists e. reflexivity.
    + rewrite (isInvokeOp_inr op v I), (H op (or_introl eq_refl)).
      apply IH. intros op' Hin. apply H. right. exact Hin.
Qed.

Lemma operationsOf_truthy tx :
  truthy tx = true ->
  operationsOf tx =
  inr (or (prop (prop (prop (prop tx "envelope") "v1") "tx") "operations")
          (JArr [])).
Proof.
  intros T. unfold operationsOf. rewrite (get_truthy tx _ T). cbn [bind].
  repeat (rewrite opt_get_total; cbn [bind]). reflexivity.
Qed.

(** Without an invoke-host-function operation, lines 188-198 assign
    nothing. *)
Lemma extractCall_no_invoke tx l :
  truthy tx = true ->
  (forall op, In op (operationList tx) -> invokesHostFunction op = false) ->
  extractCall tx l = (l, inr tt) \/ exists e, extractCall tx l = (l, inl e).
Proof.
  intros T H. unfold extractCall, sbind, lift.
  rewrite (operationsOf_truthy tx T).
  unfold operationList in H. unfold or.
  destruct (prop (prop (prop (prop tx "envelope") "v1") "tx") "operations")
    as [| |b|n|t|operations|fields]; cbn [truthy array_find].
  - left. reflexivity.
  - left. reflexivity.
  - destruct b; cbn; [right; eexists; reflexivity | left; reflexivity].
  - destruct (n =? 0); cbn; [left; reflexivity | right; eexists; reflexivity].
  - destruct (t =? "")%string; cbn;
      [left; reflexivity | right; eexists; reflexivity].
  - destruct (findM_no_invoke operations H) as [-> | [e ->]].
    + left. reflexivity.
    + right. exists e. reflexivity.
  - right. eexists. reflexivity.
Qed.

(** Lines 200-203 assign [result] at most. *)
Lemma extractResult_keeps tx l :
  calledFunction (fst (extractResult tx l)) = calledFunction l /\
  args (fst (extractResult tx l)) = args l.
Proof.
  unfold extractResult, sbind, lift.
  destruct (returnValueOf tx) as [?|returnValue]; [split; reflexivity|].
  destruct (truthy returnValue); split; reflexivity.
Qed.

Lemma extract_no_invoke tx :
  truthy tx = true ->
  (forall op, In op (operationList tx) -> invokesHostFunction op = false) ->
  calledFunction (localsOf tx) = JUndefined /\ args (localsOf tx) = JUndefined.
Proof.
  intros T H. unfold localsOf.
  destruct (truthy (prop tx "resultMetaXdr") && truthy (prop tx "meta"));
    [|split; reflexivity].
  unfold try_warn, extract, sbind.
  destruct (extractCall_no_invoke tx unassigned T H) as [-> | [e ->]].
  - apply (extractResult_keeps tx unassigned).
  - split; reflexivity.
Qed.

(** C7: for every successful [getTransaction] answer whose envelope holds
    no operation with an invoke-host-function body,
    [fetchTransactionDetails] returns a detail object in which
    [calledFunction] and [args] are absent; nothing is thrown. *)
Theorem fetchTransactionDetails_no_invoke env txHash data :
  Answered (fetch env SOROBAN_RPC_URL (detailsRequest txHash)) data ->
  truthy (prop data "error") = false ->
  truthy (prop data "result") = true ->
  (forall op, In op (operationList (prop data "result")) ->
              invokesHostFunction op = false) ->
  exists details,
    fetchTransactionDetails env txHash = Some details /\
    TransactionDetails.calledFunction details = JUndefined /\
    TransactionDetails.args details = JUndefined.
Proof.
  intros HA HE HT HN.
  destruct (fetchTransactionDetails_found env txHash data HA HE HT)
    as [signers ->].
  eexists. split; [reflexivity|].
  cbn [TransactionDetails.calledFunction TransactionDetails.args].
  exact (extract_no_invoke _ HT HN).
Qed.

Lemma fetchTransactionDetails_no_invoke_witness :
  exists details,
    fetchTransactionDetails (worldOf (answer paymentAnswer)) "abc" = Some details /\
    TransactionDetails.calledFunction details = JUndefined /\
    TransactionDetails.args details = JUndefined.
Proof.
  apply (fetchTransactionDetails_no_invoke
           (worldOf (answer paymentAnswer)) "abc" paymentAnswer).
  - eexists. repeat split; reflexivity.
  - reflexivity.
  - reflexivity.
  - intros op [<- | []]. reflexivity.
Defined.

Lemma localsOf_undecodable tx :
  truthy (prop tx "resultMetaXdr") && truthy (prop tx "meta") = false ->
  localsOf tx = unassigned.
Proof. unfold localsOf. intros ->. reflexivity. Qed.

Lemma localsOf_assigned tx :
  localsOf tx <> unassigned ->
  truthy (prop tx "resultMetaXdr") = true /\ truthy (prop tx "meta") = true.
Proof.
  intros H. apply andb_true_iff.
  destruct (truthy (prop tx "resultMetaXdr") && truthy (prop tx "meta")) eqn:E;
    [reflexivity|].
  contradiction H. apply localsOf_undecodable. exact E.
Qed.

(** C10: the function call and the return value are looked for only when
    the result payload has both [resultMetaXdr] and [meta]: for every
    success payload that lacks one of them, [calledFunction], [args] and
    [result] are all absent in the detail object, whatever the envelope's
    operations are; and a detail object in which one of the three is
    present comes from a payload that has both fields. *)
Theorem fetchTransactionDetails_undecodable env txHash data :
  Answered (fetch env SOROBAN_RPC_URL (detailsRequest txHash)) data ->
  truthy (prop data "error") = false ->
  truthy (prop data "result") = true ->
  exists details,
    fetchTransactionDetails env txHash = Some details /\
    (prop (prop data "result") "resultMetaXdr" = JUndefined \/
     prop (prop data "result") "meta" = JUndefined ->
     TransactionDetails.calledFunction details = JUndefined /\
     TransactionDetails.args details = JUndefined /\
     TransactionDetails.result details = JUndefined) /\
    (TransactionDetails.calledFunction details <> JUndefined \/
     TransactionDetails.args details <> JUndefined \/
     TransactionDetails.result details <> JUndefined ->
     prop (prop data "result") "resultMetaXdr" <> JUndefined /\
     prop (prop data "result") "meta" <> JUndefined).
Proof.
  intros HA HE HT.
  destruct (fetchTransactionDetails_found env txHash data HA HE HT)
    as [signers ->].
  eexists. split; [reflexivity|].
  cbn [TransactionDetails.calledFunction TransactionDetails.args
       TransactionDetails.result].
  split.
  - intros HL. rewrite localsOf_undecodable; [repeat split|].
    destruct HL as [-> | ->]; cbn [truthy]; [reflexivity|apply andb_false_r].
  - intros HP.
    destruct (localsOf_assigned (prop data "result")) as [H1 H2].
    + intros E. rewrite E in HP. cbn in HP.
      destruct HP as [N | [N | N]]; apply N; reflexivity.
    + split; intros E; [rewrite E in H1|rewrite E in H2]; discriminate.
Qed.

Lemma fetchTransactionDetails_undecodable_witness :
  existsb invokesHostFunction
    (operationList (prop invokeWithoutMetaAnswer "result")) = true /\
  exists details,
    fetchTransactionDetails (worldOf (answer invokeWithoutMetaAnswer)) "abc"
    = Some details /\
    TransactionDetails.calledFunction details = JUndefined /\
    TransactionDetails.args details = JUndefined /\
    TransactionDetails.result details = JUndefined.
Proof.
  split; [reflexivity|].
  destruct (fetchTransactionDetails_undecodable
              (worldOf (answer invokeWithoutMetaAnswer)) "abc"
              invokeWithoutMetaAnswer)
    as (details & E & absent & _).
  - eexists. repeat split; reflexivity.
  - reflexivity.
  - reflexivity.
  - exists details. split; [exact E|]. apply absent. right. reflexivity.
Defined.

(* ================================================================== *)
(** ** The network selector: [toggleNetwork]                          *)
(* ================================================================== *)

Import NetworkContext.

(** [setNetwork] updates the selection whether or not the store accepts
    the write. *)
Lemma setNetwork_current network p :
  currentNetwork (setNetwork network p) = network.
Proof.
  unfold setNetwork, setItem. cbn [localStorage].
  destruct (accessible (localStorage p)); reflexivity.
Qed.

Lemma toggleNetwork_current rendered p :
  currentNetwork (toggleNetwork rendered p) =
  if (rendered =? "testnet")%string then "mainnet" else "testnet".
Proof. unfold toggleNetwork. apply setNetwork_current. Qed.

(** When the store accepts writes, the selection is also what it holds. *)
Lemma toggleNetwork_persists rendered p :
  accessible (localStorage p) = true ->
  getItem STORAGE_KEY (localStorage (toggleNetwork rendered p)) =
  inr (Some (currentNetwork (toggleNetwork rendered p))).
Proof.
  intros H. rewrite toggleNetwork_current.
  unfold toggleNetwork, setNetwork, setItem. cbn [localStorage].
  rewrite H. reflexivity.
Qed.

(** C9, as stated, fails: a [toggleNetwork] taken from one render and
    called twice, with no render in between, reads the same [testnet] both
    times and leaves the selection on [mainnet]. *)
Lemma toggleNetwork_twice_counterexample :
  let toggle := renderedToggle testnetProvider in
  currentNetwork (toggle (toggle testnetProvider))
  <> currentNetwork testnetProvider.
Proof. cbv zeta. vm_compute. discriminate. Qed.

(** C9, amended: from either valid network, the [toggleNetwork] of the
    current render selects the other valid network, and the
    [toggleNetwork] of the render that follows selects the original one
    again. *)
Theorem toggleNetwork_involution p :
  validNetwork (currentNetwork p) ->
  let once := renderedToggle p p in
  let twice := renderedToggle once once in
  currentNetwork twice = currentNetwork p /\
  validNetwork (currentNetwork once) /\
  currentNetwork once <> currentNetwork p.
Proof.
  unfold validNetwork, renderedToggle. cbv zeta. intros V.
  rewrite !toggleNetwork_current.
  destruct V as [-> | ->]; cbn; repeat split; auto; discriminate.
Qed.

Lemma toggleNetwork_involution_witness :
  currentNetwork
    (renderedToggle (renderedToggle mainnetBlocked mainnetBlocked)
       (renderedToggle mainnetBlocked mainnetBlocked)) = "mainnet" /\
  validNetwork (currentNetwork (renderedToggle mainnetBlocked mainnetBlocked)) /\
  currentNetwork (renderedToggle mainnetBlocked mainnetBlocked) <> "mainnet".
Proof.
  apply (toggleNetwork_involution mainnetBlocked).
  right. reflexivity.
Defined.

(* ================================================================== *)
(** ** The display helper: [truncateHash]                             *)
(* ================================================================== *)

Module DisplayFacts.

Import TransactionDisplay.

Lemma length_append s t :
  String.length (s ++ t) = (String.length s + String.length t)%nat.
Proof. induction s as [|c s IH]; cbn; [reflexivity|]. rewrite IH. reflexivity. Qed.

Lemma substring_all s : String.substring 0 (String.length s) s = s.
Proof. induction s as [|c s IH]; cbn; [reflexivity|]. rewrite IH. reflexivity. Qed.

Lemma substring_split_0 a b s :
  String.substring 0 (a + b) s =
  String.substring 0 a s ++ String.substring a b s.
Proof.
  revert s. induction a as [|a IH]; intros s.
  - destruct s; reflexivity.
  - destruct s as [|c s]; cbn; [reflexivity|]. rewrite IH. reflexivity.
Qed.

Lemma substring_split n a b s :
  String.substring n (a + b) s =
  String.substring n a s ++ String.substring (n + a) b s.
Proof.
  revert s. induction n as [|n IH]; intros s.
  - apply substring_split_0.
  - destruct s as [|c s]; cbn.
    + destruct a; reflexivity.
    + apply IH.
Qed.

Lemma length_substring n m s :
  String.length (String.substring n m s) = Nat.min m (String.length s - n).
Proof.
  revert m s. induction n as [|n IH]; intros m s.
  - revert s. induction m as [|m IHm]; intros s.
    + destruct s; reflexivity.
    + destruct s as [|c s]; cbn; [reflexivity|].
      rewrite IHm. rewrite Nat.sub_0_r. reflexivity.
  - destruct s as [|c s]; cbn.
    + destruct m; reflexivity.
    + apply IH.
Qed.

(** The two pieces [truncateHash] takes, on natural-number indices. *)
Lemma substring_head s k :
  substring s 0 (Some (Z.of_nat k)) =
  String.substring 0 (Nat.min k (String.length s)) s.
Proof.
  unfold substring, clamp.
  replace (Z.min (Z.max 0 (Z.min 0 (Z.of_nat (String.length s)))) _) with 0 by lia.
  replace (Z.max (Z.max 0 (Z.min 0 (Z.of_nat (String.length s))))
             (Z.max 0 (Z.min (Z.of_nat k) (Z.of_nat (String.length s)))) - 0)
    with (Z.of_nat (Nat.min k (String.length s))) by lia.
  rewrite Nat2Z.id. reflexivity.
Qed.

Lemma substring_tail s m :
  substring s (Z.of_nat (String.length s) - Z.of_nat m) None =
  String.substring (String.length s - m) (Nat.min m (String.length s)) s.
Proof.
  unfold substring, clamp.
  set (len := String.length s).
  replace (Z.min (Z.max 0 (Z.min (Z.of_nat len - Z.of_nat m) (Z.of_nat len)))
             (Z.of_nat len)) with (Z.of_nat (len - m)) by lia.
  replace (Z.max (Z.max 0 (Z.min (Z.of_nat len - Z.of_nat m) (Z.of_nat len)))
             (Z.of_nat len) - Z.of_nat (len - m))
    with (Z.of_nat (Nat.min m len)) by lia.
  rewrite !Nat2Z.id. reflexivity.
Qed.

Lemma truncateHash_pieces hash isMobile :
  hash <> "" ->
  truncateHash hash isMobile =
  String.substring 0 (Nat.min (fst (kept isMobile)) (String.length hash)) hash
  ++ "..." ++
  String.substring (String.length hash - snd (kept isMobile))
    (Nat.min (snd (kept isMobile)) (String.length hash)) hash.
Proof.
  intros N. unfold truncateHash.
  destruct (String.eqb_spec hash "") as [E|_]; [contradiction|].
  destruct isMobile; cbn [kept fst snd].
  - change (Some 6) with (Some (Z.of_nat 6)).
    change 4 with (Z.of_nat 4).
    rewrite (substring_head hash 6), (substring_tail hash 4). reflexivity.
  - change (Some 8) with (Some (Z.of_nat 8)).
    change 6 with (Z.of_nat 6).
    rewrite (substring_head hash 8), (substring_tail hash 6). reflexivity.
Qed.

Lemma length_truncateHash hash isMobile :
  hash <> "" ->
  String.length (truncateHash hash isMobile) =
  (Nat.min (fst (kept isMobile)) (String.length hash) + 3 +
   Nat.min (snd (kept isMobile)) (String.length hash))%nat.
Proof.
  intros N. rewrite (truncateHash_pieces hash isMobile N).
  rewrite !length_append, !length_substring. cbn [String.length].
  destruct isMobile; cbn [kept fst snd]; lia.
Qed.

(** X1: for a non-empty hash, the displayed text is the hash's leading
    characters (6 on mobile, 8 otherwise; the whole hash when it is
    shorter), three dots, and the hash's trailing characters (4 on mobile,
    6 otherwise; the whole hash when it is shorter); its length follows. *)
Theorem truncateHash_shape hash isMobile :
  hash <> "" ->
  exists leading rest skipped trailing,
    hash = leading ++ rest /\
    hash = skipped ++ trailing /\
    String.length leading =
      Nat.min (fst (kept isMobile)) (String.length hash) /\
    String.length trailing =
      Nat.min (snd (kept isMobile)) (String.length hash) /\
    truncateHash hash isMobile = leading ++ "..." ++ trailing /\
    String.length (truncateHash hash isMobile) =
      (String.length leading + 3 + String.length trailing)%nat.
Proof.
  intros N.
  set (K := fst (kept isMobile)). set (M := snd (kept isMobile)).
  set (len := String.length hash).
  exists (String.substring 0 (Nat.min K len) hash),
         (String.substring (Nat.min K len) (len - Nat.min K len) hash),
         (String.substring 0 (len - M) hash),
         (String.substring (len - M) (Nat.min M len) hash).
  assert (LL : String.length (String.substring 0 (Nat.min K len) hash)
               = Nat.min K len)
    by (rewrite length_substring; fold len; lia).
  assert (LT : String.length (String.substring (len - M) (Nat.min M len) hash)
               = Nat.min M len)
    by (rewrite length_substring; fold len; lia).
  repeat split.
  - rewrite <- (substring_all hash) at 1. fold len.
    replace len with (Nat.min K len + (len - Nat.min K len))%nat at 1 by lia.
    apply (substring_split 0).
  - rewrite <- (substring_all hash) at 1. fold len.
    replace len with ((len - M) + Nat.min M len)%nat at 1 by lia.
    apply (substring_split 0).
  - exact LL.
  - exact LT.
  - exact (truncateHash_pieces hash isMobile N).
  - rewrite (length_truncateHash hash isMobile N). fold K M len.
    rewrite LL, LT. reflexivity.
Qed.

Lemma truncateHash_shape_witness :
  exists leading rest skipped trailing,
    "0123456789" = leading ++ rest /\
    "0123456789" = skipped ++ trailing /\
    String.length leading = 6%nat /\
    String.length trailing = 4%nat /\
    truncateHash "0123456789" true = leading ++ "..." ++ trailing /\
    String.length (truncateHash "0123456789" true) =
      (String.length leading + 3 + String.length trailing)%nat.
Proof.
  apply (truncateHash_shape "0123456789" true). discriminate.
Defined.

(** X2: a hash at least as long as what is kept on both sides is cut in
    three: its first 6 (8) characters, a middle that is dropped, and its
    last 4 (6) characters; the display is the first part, three dots, and
    the last part. *)
Theorem truncateHash_keeps_ends hash isMobile :
  (fst (kept isMobile) + snd (kept isMobile) <= String.length hash)%nat ->
  exists first middle last,
    hash = first ++ middle ++ last /\
    String.length first = fst (kept isMobile) /\
    String.length last = snd (kept isMobile) /\
    truncateHash hash isMobile = first ++ "..." ++ last.
Proof.
  intros L.
  set (K := fst (kept isMobile)) in *. set (M := snd (kept isMobile)) in *.
  set (len := String.length hash) in *.
  assert (N : hash <> "").
  { intros ->. subst K M len. destruct isMobile; cbn in L; lia. }
  exists (String.substring 0 K hash),
         (String.substring K (len - K - M) hash),
         (String.substring (len - M) M hash).
  repeat split.
  - rewrite <- (substring_all hash) at 1. fold len.
    replace len with (K + ((len - K - M) + M))%nat at 1 by lia.
    rewrite (substring_split 0 K), (substring_split (0 + K) (len - K - M) M).
    replace (0 + K + (len - K - M))%nat with (len - M)%nat by lia.
    reflexivity.
  - rewrite length_substring. fold len. lia.
  - rewrite length_substring. fold len. lia.
  - rewrite (truncateHash_pieces hash isMobile N). fold K M len.
    replace (Nat.min K len) with K by lia.
    replace (Nat.min M len) with M by lia.
    reflexivity.
Qed.

Lemma truncateHash_keeps_ends_witness :
  exists first middle last,
    "a1b2c3d4e5f6a7b8c9d0" = first ++ middle ++ last /\
    String.length first = 8%nat /\
    String.length last = 6%nat /\
    truncateHash "a1b2c3d4e5f6a7b8c9d0" false = first ++ "..." ++ last.
Proof.
  apply (truncateHash_keeps_ends "a1b2c3d4e5f6a7b8c9d0" false). cbn. lia.
Defined.

(** X3: a non-empty hash no longer than the kept tail (4 on mobile, 6
    otherwise) is not shortened at all: it is shown twice, with three dots
    in between. *)
Theorem truncateHash_short hash isMobile :
  hash <> "" ->
  (String.length hash <= snd (kept isMobile))%nat ->
  truncateHash hash isMobile = hash ++ "..." ++ hash.
Proof.
  intros N L. rewrite (truncateHash_pieces hash isMobile N).
  assert (L' : (String.length hash <= fst (kept isMobile))%nat).
  { destruct isMobile; cbn [kept fst snd] in *; lia. }
  replace (Nat.min (fst (kept isMobile)) (String.length hash))
    with (String.length hash) by lia.
  replace (Nat.min (snd (kept isMobile)) (String.length hash))
    with (String.length hash) by lia.
  replace (String.length hash - snd (kept isMobile))%nat with 0%nat by lia.
  rewrite substring_all. reflexivity.
Qed.

Lemma truncateHash_short_witness :
  truncateHash "abc" true = "abc...abc".
Proof.
  apply (truncateHash_short "abc" true); [discriminate | cbn; lia].
Defined.

(** X4: the display is shorter than the hash exactly when the hash has
    more than 13 characters on mobile, more than 17 otherwise; a shorter
    non-empty hash is shown at its own length or longer. *)
Theorem truncateHash_shortens hash isMobile :
  hash <> "" ->
  ((String.length (truncateHash hash isMobile) < String.length hash)%nat <->
   (fst (kept isMobile) + 3 + snd (kept isMobile) < String.length hash)%nat).
Proof.
  intros N. rewrite (length_truncateHash hash isMobile N).
  destruct isMobile; cbn [kept fst snd]; lia.
Qed.

Lemma truncateHash_shortens_witness :
  (String.length (truncateHash "0123456789abcd" true) < 14)%nat <->
  (6 + 3 + 4 < 14)%nat.
Proof.
  apply (truncateHash_shortens "0123456789abcd" true). discriminate.
Defined.

(** X5: ["N/A"] is shown for the empty hash and for no other. *)
Theorem truncateHash_not_available hash isMobile :
  truncateHash hash isMobile = "N/A" <-> hash = "".
Proof.
  split.
  - intros H. destruct (String.eqb_spec hash "") as [E|N]; [exact E|].
    exfalso. pose proof (length_truncateHash hash isMobile N) as HL.
    rewrite H in HL. cbn [String.length] in HL.
    assert (0 < String.length hash)%nat.
    { destruct hash; [contradiction N; reflexivity | cbn; lia]. }
    destruct isMobile; cbn [kept fst snd] in HL; lia.
  - intros ->. reflexivity.
Qed.

End DisplayFacts.

(* ================================================================== *)
(** ** The network selector: persistence                              *)
(* ================================================================== *)

Module NetworkFacts.

Import NetworkProvider.

Lemma eqb_valid network :
  validNetwork network ->
  negb (network =? "")%string
  && ((network =? "testnet")%string || (network =? "mainnet")%string) = true.
Proof. intros [-> | ->]; reflexivity. Qed.

Lemma eqb_invalid network :
  ~ validNetwork network ->
  negb (network =? "")%string
  && ((network =? "testnet")%string || (network =? "mainnet")%string) = false.
Proof.
  unfold validNetwork. intros N.
  destruct (String.eqb_spec network "testnet") as [E|_];
    [contradiction N; left; exact E|].
  destruct (String.eqb_spec network "mainnet") as [E|_];
    [contradiction N; right; exact E|].
  apply andb_false_r.
Qed.

(** X6: a network chosen with [setNetwork] survives a reload: when the
    store accepts the write and the network is one of the two valid ones,
    a provider mounted later on that store selects it, whatever the default
    network and whatever was stored before. *)
Theorem setNetwork_survives_reload network p defaultNetwork :
  accessible (localStorage p) = true ->
  validNetwork network ->
  currentNetwork (mount defaultNetwork (localStorage (setNetwork network p)))
  = network.
Proof.
  intros A V. unfold mount, restore, setNetwork, setItem, getItem.
  cbn [localStorage]. rewrite A. cbn [bind ret try_catch localStorage accessible entries assoc].
  rewrite String.eqb_refl. cbn [bind ret try_catch].
  rewrite (eqb_valid network V). reflexivity.
Qed.

Lemma setNetwork_survives_reload_witness :
  currentNetwork
    (mount "testnet"
       (localStorage
          (setNetwork "mainnet"
             (mkProvider "testnet"
                (mkStorage true [(STORAGE_KEY, "testnet")])))))
  = "mainnet".
Proof.
  apply (setNetwork_survives_reload "mainnet"
           (mkProvider "testnet" (mkStorage true [(STORAGE_KEY, "testnet")]))
           "testnet").
  - reflexivity.
  - right. reflexivity.
Defined.

(** X7: mounting selects a valid network whenever the default is valid:
    a stored value is taken only if it is ["testnet"] or ["mainnet"]. *)
Theorem mount_valid defaultNetwork store :
  validNetwork defaultNetwork ->
  validNetwork (currentNetwork (mount defaultNetwork store)).
Proof.
  intros V. unfold mount, restore, getItem. cbn [localStorage].
  destruct (accessible store); cbn [bind ret throw try_catch]; [|exact V].
  destruct (assoc STORAGE_KEY (entries store)) as [saved|]; [|exact V].
  destruct (String.eqb_spec saved "testnet") as [->|_]; [left; reflexivity|].
  destruct (String.eqb_spec saved "mainnet") as [->|_]; [right; reflexivity|].
  rewrite andb_false_r. exact V.
Qed.

Lemma mount_valid_witness :
  validNetwork
    (currentNetwork
       (mount "testnet" (mkStorage true [(STORAGE_KEY, "futurenet")]))).
Proof.
  apply (mount_valid "testnet" (mkStorage true [(STORAGE_KEY, "futurenet")])).
  left. reflexivity.
Defined.

(** X8: mounting keeps the default network when the store cannot be read,
    holds nothing under the key, or holds something that is not one of the
    two valid networks. *)
Theorem mount_keeps_default defaultNetwork store :
  accessible store = false \/
  assoc STORAGE_KEY (entries store) = None \/
  (exists saved,
      assoc STORAGE_KEY (entries store) = Some saved /\ ~ validNetwork saved) ->
  mount defaultNetwork store = mkProvider defaultNetwork store.
Proof.
  intros H. unfold mount, restore, getItem. cbn [localStorage].
  destruct (accessible store); cbn [bind ret throw try_catch]; [|reflexivity].
  destruct H as [H | [-> | (saved & -> & N)]];
    [discriminate H | reflexivity |].
  rewrite (eqb_invalid saved N). reflexivity.
Qed.

Lemma mount_keeps_default_witness :
  mount "testnet" (mkStorage true [(STORAGE_KEY, "futurenet")]) =
  mkProvider "testnet" (mkStorage true [(STORAGE_KEY, "futurenet")]).
Proof.
  apply (mount_keeps_default "testnet"
           (mkStorage true [(STORAGE_KEY, "futurenet")])).
  right. right. exists "futurenet". split; [reflexivity|].
  intros [H | H]; discriminate H.
Defined.

(** X9: whatever the render showed, [toggleNetwork] lands on a valid
    network: on ["mainnet"] when the render showed ["testnet"], on
    ["testnet"] when it showed anything else (a value that is not valid
    included).  Called again from the same render it selects that same
    network once more; called from the render that follows, it selects
    the other valid network. *)
Theorem toggleNetwork_lands_valid rendered p :
  let once := toggleNetwork rendered p in
  validNetwork (currentNetwork once) /\
  (rendered <> "testnet" -> currentNetwork once = "testnet") /\
  currentNetwork (toggleNetwork rendered once) = currentNetwork once /\
  validNetwork (currentNetwork (renderedToggle once once)) /\
  currentNetwork (renderedToggle once once) <> currentNetwork once.
Proof.
  cbv zeta. unfold renderedToggle. rewrite !toggleNetwork_current.
  destruct (String.eqb_spec rendered "testnet") as [E|N]; cbn.
  - repeat split; [right; reflexivity | intros C; contradiction
                   | left; reflexivity | discriminate].
  - repeat split; [left; reflexivity | right; reflexivity | discriminate].
Qed.

(** X10: the selector touches one key only: [setNetwork] (and so
    [toggleNetwork]) leaves what the store holds under every other key as
    it was, and a store that refuses the write is left unchanged while the
    selection is still updated. *)
Theorem setNetwork_frame network p :
  currentNetwork (setNetwork network p) = network /\
  (forall k, k <> STORAGE_KEY ->
     assoc k (entries (localStorage (setNetwork network p))) =
     assoc k (entries (localStorage p))) /\
  (accessible (localStorage p) = false ->
   localStorage (setNetwork network p) = localStorage p).
Proof.
  unfold setNetwork, setItem. cbn [localStorage].
  destruct (accessible (localStorage p)) eqn:A;
    cbn [bind ret throw try_catch currentNetwork localStorage entries assoc].
  - split; [reflexivity|]. split; [|discriminate].
    intros k N. destruct (String.eqb_spec k STORAGE_KEY) as [E|_];
      [contradiction|reflexivity].
  - repeat split; reflexivity.
Qed.

End NetworkFacts.

(* ================================================================== *)
(** ** The listing: shape of the answer                               *)
(* ================================================================== *)

Module ListingFacts.

(** The summary made of one raw transaction. *)
Definition summaryOf (raw : JsVal) : TransactionMetadata.t :=
  TransactionMetadata.mk
    (prop raw "id") (prop raw "ledger") (prop raw "createdAt")
    (prop raw "status") (prop raw "applicationOrder").

(** [null] or [undefined]. *)
Definition nullish (v : JsVal) : bool :=
  match v with
  | JUndefined | JNull => true
  | _ => false
  end.

(** A result the success path can turn into a page: an object or a
    primitive whose [transactions] are falsy or an array without [null]. *)
Definition wellShaped (result : JsVal) : Prop :=
  nullish result = false /\
  (truthy (prop result "transactions") = false \/
   exists raws,
     prop result "transactions" = JArr raws /\
     Forall (fun raw => nullish raw = false) raws).

(** A result the success path trips on. *)
Inductive Malformed (result : JsVal) : Prop :=
| missing_result :
    nullish result = true -> Malformed result
| transactions_not_array :
    truthy (prop result "transactions") = true ->
    (forall raws, prop result "transactions" <> JArr raws) ->
    Malformed result
| null_transaction raws :
    prop result "transactions" = JArr raws ->
    Exists (fun raw => nullish raw = true) raws ->
    Malformed result.

(** The page of the success path, read off the result. *)
Definition pageOf (result : JsVal) : TransactionResponse.t :=
  let transactions :=
    map summaryOf
      (match prop result "transactions" with
       | JArr raws => raws
       | _ => []
       end) in
  TransactionResponse.mk
    transactions
    (or (prop result "latestLedger") (JNum 0))
    (or (prop result "oldestLedger") (JNum 0))
    (prop result "cursor")
    (truthy (prop result "cursor"))
    (match transactions with
     | [] => Some EMPTY_NOTICE
     | _ :: _ => None
     end).

Lemma get_not_nullish v k : nullish v = false -> get v k = inr (prop v k).
Proof. destruct v; cbn; intros H; try discriminate; reflexivity. Qed.

Lemma get_nullish v k : nullish v = true -> exists e, get v k = inl e.
Proof. destruct v; cbn; intros H; try discriminate; eexists; reflexivity. Qed.

Lemma toMetadata_not_nullish raw :
  nullish raw = false -> toMetadata raw = inr (summaryOf raw).
Proof.
  intros H. unfold toMetadata.
  rewrite !(get_not_nullish raw _ H). reflexivity.
Qed.

Lemma mapM_toMetadata_ok raws :
  Forall (fun raw => nullish raw = false) raws ->
  mapM toMetadata raws = inr (map summaryOf raws).
Proof.
  induction 1 as [|raw raws H _ IH]; [reflexivity|].
  cbn [mapM map]. rewrite (toMetadata_not_nullish raw H). cbn [bind].
  rewrite IH. reflexivity.
Qed.

Lemma mapM_toMetadata_throws raws :
  Exists (fun raw => nullish raw = true) raws ->
  exists e, mapM toMetadata raws = inl e.
Proof.
  induction 1 as [raw raws H|raw raws _ [e IH]]; cbn [mapM].
  - destruct (get_nullish raw "id" H) as [e G].
    exists e. unfold toMetadata. rewrite G. reflexivity.
  - destruct (toMetadata raw) as [e'|tx]; cbn [bind].
    + exists e'. reflexivity.
    + rewrite IH. exists e. reflexivity.
Qed.

Lemma listingOf_wellShaped result :
  wellShaped result -> listingOf result = inr (pageOf result).
Proof.
  intros [N H]. unfold listingOf, pageOf.
  rewrite !(get_not_nullish result _ N). cbn [bind].
  destruct H as [F | (raws & -> & W)].
  - unfold or. rewrite F. cbn [array_map mapM bind ret].
    destruct (prop result "transactions"); try reflexivity; discriminate F.
  - unfold or. cbn [truthy array_map]. rewrite (mapM_toMetadata_ok raws W).
    reflexivity.
Qed.

Lemma listingOf_malformed result :
  Malformed result -> exists e, listingOf result = inl e.
Proof.
  intros [N | T NA | raws E X]; unfold listingOf.
  - destruct (get_nullish result "transactions" N) as [e ->].
    exists e. reflexivity.
  - destruct (get result "transactions") as [e|raw] eqn:G;
      [exists e; reflexivity|].
    apply get_inr in G. subst raw. cbn [bind]. unfold or. rewrite T.
    destruct (prop result "transactions") as [| |b|n|t|raws|fields];
      cbn [array_map bind throw]; try (eexists; reflexivity).
    contradiction (NA raws). reflexivity.
  - assert (G : get result "transactions" = inr (JArr raws)).
    { rewrite <- E. destruct result; try reflexivity; discriminate E. }
    rewrite G. cbn [bind]. unfold or. cbn [truthy array_map].
    destruct (mapM_toMetadata_throws raws X) as [e ->].
    exists e. reflexivity.
Qed.

(** Every result is of one kind or the other. *)
Lemma wellShaped_or_malformed result : wellShaped result \/ Malformed result.
Proof.
  destruct (nullish result) eqn:N; [right; apply missing_result; exact N|].
  destruct (truthy (prop result "transactions")) eqn:T;
    [|left; split; [exact N|left; exact T]].
  destruct (prop result "transactions") as [| |b|n|t|raws|fields] eqn:E;
    try discriminate T.
  1-3, 5: right; apply transactions_not_array;
    [rewrite E; exact T | rewrite E; discriminate].
  destruct (existsb nullish raws) eqn:X.
  - right. apply (null_transaction result raws E).
    apply existsb_exists in X. apply Exists_exists. exact X.
  - left. split; [exact N|]. right. exists raws. split; [exact E|].
    apply Forall_forall. intros raw Hin.
    destruct (nullish raw) eqn:R; [|reflexivity].
    assert (existsb nullish raws = true)
      by (apply existsb_exists; exists raw; split; assumption).
    congruence.
Qed.

Lemma listingOfData_no_error data :
  truthy (prop data "error") = false ->
  listingOfData data = listingOf (prop data "result") \/
  (nullish data = true /\ exists e, listingOfData data = inl e).
Proof.
  intros HE. unfold listingOfData.
  destruct (nullish data) eqn:N.
  - right. split; [reflexivity|].
    destruct (get_nullish data "error" N) as [e ->]. exists e. reflexivity.
  - left. rewrite !(get_not_nullish data _ N). cbn [bind]. rewrite HE.
    reflexivity.
Qed.

(** X11: on an answer without error whose result is not [null] and whose
    transactions are absent (falsy) or an array without [null] elements,
    [fetchTransactions] returns the success page: one summary per raw
    transaction, in the order of the answer, with [id] as hash; the ledger
    bounds of the answer, 0 where one is missing; the cursor as sent; the
    "no recent transactions" notice exactly when there is no item. *)
Theorem fetchTransactions_success_page
    env contractId options contractAddress data :
  Contract_contractId env contractId = inr contractAddress ->
  Answered (fetch env SOROBAN_RPC_URL
              (transactionsRequest contractAddress options)) data ->
  truthy (prop data "error") = false ->
  wellShaped (prop data "result") ->
  fetchTransactions env contractId options = pageOf (prop data "result").
Proof.
  intros HC HA HE HW.
  apply fetchTransactions_returned.
  rewrite (fetchTransactions_try_answered _ _ _ _ _ HC HA).
  apply listingOfData_success; [exact HE|].
  apply listingOf_wellShaped. exact HW.
Qed.

Definition twoTransactionsAnswer : JsVal :=
  JObj [("jsonrpc", JStr "2.0"); ("id", JNum 1);
        ("result", JObj [
           ("transactions", JArr [
              JObj [("id", JStr "b2"); ("ledger", JNum 7);
                    ("createdAt", JStr "t2"); ("status", JStr "FAILED");
                    ("applicationOrder", JNum 2)];
              JObj [("id", JStr "a1"); ("ledger", JNum 7);
                    ("createdAt", JStr "t1"); ("status", JStr "SUCCESS");
                    ("applicationOrder", JNum 1)]]);
           ("latestLedger", JNum 9);
           ("cursor", JStr "7-1")])].

Lemma fetchTransactions_success_page_witness :
  fetchTransactions (worldOf (answer twoTransactionsAnswer)) sampleContract
    FetchTransactionsOptions.empty =
  TransactionResponse.mk
    [TransactionMetadata.mk (JStr "b2") (JNum 7) (JStr "t2") (JStr "FAILED") (JNum 2);
     TransactionMetadata.mk (JStr "a1") (JNum 7) (JStr "t1") (JStr "SUCCESS") (JNum 1)]
    (JNum 9) (JNum 0) (JStr "7-1") true None.
Proof.
  apply (fetchTransactions_success_page
           (worldOf (answer twoTransactionsAnswer)) sampleContract
           FetchTransactionsOptions.empty sampleContract twoTransactionsAnswer).
  - reflexivity.
  - eexists. repeat split; reflexivity.
  - reflexivity.
  - split; [reflexivity|]. right. eexists. split; [reflexivity|].
    repeat constructor.
Defined.

(** X12: an answer without error is not enough for a listing: when its
    result is missing or [null], when [transactions] is something truthy
    that is not an array, or when one of the transactions is [null], the
    whole listing is replaced by the graceful page; no item is kept. *)
Theorem fetchTransactions_malformed_result
    env contractId options contractAddress data :
  Contract_contractId env contractId = inr contractAddress ->
  Answered (fetch env SOROBAN_RPC_URL
              (transactionsRequest contractAddress options)) data ->
  truthy (prop data "error") = false ->
  Malformed (prop data "result") ->
  fetchTransactions env contractId options = gracefulResponse.
Proof.
  intros HC HA HE HM.
  destruct (listingOf_malformed _ HM) as [e HL].
  destruct (listingOfData_no_error data HE) as [E | (_ & e' & E)].
  - apply (fetchTransactions_caught env contractId options e).
    rewrite (fetchTransactions_try_answered _ _ _ _ _ HC HA), E. exact HL.
  - apply (fetchTransactions_caught env contractId options e').
    rewrite (fetchTransactions_try_answered _ _ _ _ _ HC HA). exact E.
Qed.

Definition nullTransactionAnswer : JsVal :=
  JObj [("jsonrpc", JStr "2.0"); ("id", JNum 1);
        ("result", JObj [
           ("transactions", JArr [
              JObj [("id", JStr "b2"); ("ledger", JNum 7);
                    ("createdAt", JStr "t2"); ("status", JStr "SUCCESS")];
              JNull]);
           ("latestLedger", JNum 9)])].

Lemma fetchTransactions_malformed_result_witness :
  fetchTransactions (worldOf (answer nullTransactionAnswer)) sampleContract
    FetchTransactionsOptions.empty = gracefulResponse.
Proof.
  apply (fetchTransactions_malformed_result
           (worldOf (answer nullTransactionAnswer)) sampleContract
           FetchTransactionsOptions.empty sampleContract nullTransactionAnswer).
  - reflexivity.
  - eexists. repeat split; reflexivity.
  - reflexivity.
  - eapply null_transaction; [reflexivity|].
    apply Exists_cons_tl. apply Exists_cons_hd. reflexivity.
Defined.

Lemma or_default_truthy v d :
  or v d = d \/ truthy (or v d) = true.
Proof. unfold or. destruct (truthy v) eqn:T; [right; exact T|left; reflexivity]. Qed.

(** X13: in every page [fetchTransactions] returns, each ledger bound is
    either the number 0 or a truthy value taken from the answer: a bound
    is never [undefined], [null], [false] or the empty string. *)
Theorem ledger_bounds_defaulted env contractId options :
  let page := fetchTransactions env contractId options in
  (TransactionResponse.latestLedger page = JNum 0 \/
   truthy (TransactionResponse.latestLedger page) = true) /\
  (TransactionResponse.oldestLedger page = JNum 0 \/
   truthy (TransactionResponse.oldestLedger page) = true).
Proof.
  cbv zeta.
  destruct (fetchTransactions_cases env contractId options)
    as [-> | [-> | [result HL]]].
  - split; left; reflexivity.
  - split; left; reflexivity.
  - destruct (listingOf_inr _ _ HL) as (transactions & _ & ->).
    cbn [TransactionResponse.latestLedger TransactionResponse.oldestLedger].
    split; apply or_default_truthy.
Qed.

Lemma strict_eq_num_spec v n : strict_eq_num v n = true <-> v = JNum n.
Proof.
  destruct v; cbn; split; try discriminate.
  - intros H. apply Z.eqb_eq in H. subst. reflexivity.
  - intros H. injection H as ->. apply Z.eqb_refl.
Qed.

Lemma existsb_strict_eq_str elems s :
  existsb (fun x => strict_eq_str x s) elems = true <-> In (JStr s) elems.
Proof.
  rewrite existsb_exists. split.
  - intros (x & Hin & Hx). destruct x; try discriminate Hx.
    cbn in Hx. apply String.eqb_eq in Hx. subst. exact Hin.
  - intros Hin. exists (JStr s). split; [exact Hin|]. cbn. apply String.eqb_refl.
Qed.

(** When [message?.includes("retention")] is truthy. *)
Lemma opt_call_includes_truthy message :
  (exists found,
      opt_call_includes message "retention" = inr found /\ truthy found = true) <->
  (exists text, message = JStr text /\ Contains "retention" text) \/
  (exists elems, message = JArr elems /\ In (JStr "retention") elems).
Proof.
  split.
  - intros (found & H & T).
    destruct message as [| |b|n|text|elems|fields]; cbn in H;
      try discriminate H; injection H as <-; try discriminate T.
    + left. exists text. split; [reflexivity|]. apply includes_spec. exact T.
    + right. exists elems. split; [reflexivity|].
      apply existsb_strict_eq_str. exact T.
  - intros [(text & -> & HC) | (elems & -> & HI)]; eexists; cbn;
      (split; [reflexivity|]); cbn.
    + apply includes_spec. exact HC.
    + apply existsb_strict_eq_str. exact HI.
Qed.

(** X14: what counts as a retention error: the code is the number -32600,
    or the message is a string containing "retention" (in lower case), or
    the message is an array with the element "retention".  Any other error
    value, a bare string among them, is not one. *)
Theorem isRetentionError_iff error :
  isRetentionError error = inr true <->
  prop error "code" = JNum (-32600) \/
  (exists text,
      prop error "message" = JStr text /\ Contains "retention" text) \/
  (exists elems,
      prop error "message" = JArr elems /\ In (JStr "retention") elems).
Proof.
  unfold isRetentionError.
  destruct (nullish error) eqn:N.
  { destruct (get_nullish error "code" N) as [e ->]. cbn [bind].
    assert (P : forall k, prop error k = JUndefined)
      by (intros k; destruct error; try discriminate N; reflexivity).
    rewrite !P. split; [discriminate|].
    intros [H | [(m & H & _) | (l & H & _)]]; discriminate H. }
  rewrite !(get_not_nullish error _ N). cbn [bind].
  destruct (strict_eq_num (prop error "code") (-32600)) eqn:S.
  - apply strict_eq_num_spec in S. split; [intros _; left; exact S|reflexivity].
  - assert (NC : prop error "code" <> JNum (-32600)).
    { intros E. apply strict_eq_num_spec in E. congruence. }
    rewrite <- opt_call_includes_truthy. split.
    + intros H. right.
      destruct (opt_call_includes (prop error "message") "retention")
        as [e|found]; [discriminate H|].
      exists found. split; [reflexivity|]. cbn in H. injection H as H. exact H.
    + intros [H | (found & -> & T)]; [contradiction|].
      cbn. rewrite T. reflexivity.
Qed.

(** X15: the retention notice is shown only for a retention error: a page
    carrying it comes from a request that was sent and answered with status
    2xx and a body whose [error] is truthy and passes the retention
    test. *)
Theorem retention_notice_only_on_retention_error env contractId options :
  TransactionResponse.retentionNotice (fetchTransactions env contractId options)
  = Some RETENTION_NOTICE ->
  exists contractAddress data,
    Contract_contractId env contractId = inr contractAddress /\
    Answered (fetch env SOROBAN_RPC_URL
                (transactionsRequest contractAddress options)) data /\
    truthy (prop data "error") = true /\
    isRetentionError (prop data "error") = inr true.
Proof.
  unfold fetchTransactions, fetchTransactions_try.
  destruct (Contract_contractId env contractId) as [?|contractAddress];
    [discriminate|].
  cbn [bind].
  destruct (fetch env SOROBAN_RPC_URL _) as [?|response] eqn:F; [discriminate|].
  cbn [await ret bind].
  destruct (Response.ok response) eqn:K; [|discriminate].
  cbn [negb].
  destruct (Response.json response) as [?|data] eqn:J; [discriminate|].
  cbn [bind]. intros H.
  exists contractAddress, data. split; [reflexivity|].
  split; [exists response; repeat split; assumption|].
  unfold listingOfData in H.
  destruct (get data "error") as [?|error] eqn:G; [discriminate H|].
  apply get_inr in G. subst error. cbn [bind] in H.
  destruct (truthy (prop data "error")) eqn:T.
  - split; [reflexivity|].
    destruct (isRetentionError (prop data "error")) as [?|[|]];
      cbn [bind] in H; [discriminate H | reflexivity |].
    destruct (get (prop data "error") "message"); discriminate H.
  - exfalso.
    destruct (get data "result") as [?|result]; [discriminate H|].
    cbn [bind] in H.
    destruct (listingOf result) as [?|page] eqn:L; [discriminate H|].
    destruct (listingOf_inr _ _ L) as (transactions & _ & ->).
    cbn in H. destruct transactions; discriminate H.
Qed.

Lemma retention_notice_only_on_retention_error_witness :
  exists contractAddress data,
    Contract_contractId (worldOf (answer retentionAnswer)) sampleContract
    = inr contractAddress /\
    Answered (fetch (worldOf (answer retentionAnswer)) SOROBAN_RPC_URL
                (transactionsRequest contractAddress
                   FetchTransactionsOptions.empty)) data /\
    truthy (prop data "error") = true /\
    isRetentionError (prop data "error") = inr true.
Proof.
  apply (retention_notice_only_on_retention_error
           (worldOf (answer retentionAnswer)) sampleContract
           FetchTransactionsOptions.empty).
  reflexivity.
Defined.

End ListingFacts.

(* ================================================================== *)
(** ** The detail: what is extracted                                  *)
(* ================================================================== *)

Module DetailFacts.

Import ListingFacts.

(** [tx.envelope.v1.tx.operations], read without throwing. *)
Definition operationsValue (tx : JsVal) : JsVal :=
  prop (prop (prop (prop tx "envelope") "v1") "tx") "operations".

(** [op.body.invokeHostFunction.hostFunction.invokeContract]. *)
Definition invokeContractOf (op : JsVal) : JsVal :=
  prop (prop (prop (prop op "body") "invokeHostFunction") "hostFunction")
       "invokeContract".

(** [tx.meta.v3.sorobanMeta.returnValue]. *)
Definition returnValueAt (tx : JsVal) : JsVal :=
  prop (prop (prop (prop tx "meta") "v3") "sorobanMeta") "returnValue".

(** The guard of the extraction block. *)
Definition decodable (tx : JsVal) : bool :=
  truthy (prop tx "resultMetaXdr") && truthy (prop tx "meta").

(** The signers list of lines 174-179. *)
Definition signersFor (tx : JsVal) : list string :=
  if truthy (prop tx "envelopeXdr")
     && truthy (prop (prop tx "envelope") "signatures")
  then ["(Signature validation required)"%string]
  else [].

(** The detail object of a truthy result. *)
Definition detailOf (tx : JsVal) : TransactionDetails.t :=
  TransactionDetails.mk
    (prop tx "id") (prop tx "ledger") (prop tx "createdAt") (prop tx "status")
    (signersFor tx)
    (calledFunction (localsOf tx)) (args (localsOf tx)) (result (localsOf tx))
    (prop tx "envelope") (prop tx "meta").

(** What lines 192-198 assign once [find] has returned [op]. *)
Definition callLocals (op : JsVal) (l : Locals) : Locals :=
  let invokeContract := invokeContractOf op in
  if truthy invokeContract then
    mkLocals (or (prop invokeContract "functionName") (JStr "invoke_contract"))
             (or (prop invokeContract "args") (JArr []))
             (result l)
  else l.

(** The operations on which the extraction block gives up: something
    truthy that is not an array, or an array with a [null] before any
    invoke-host-function operation. *)
Inductive Aborts (tx : JsVal) : Prop :=
| operations_not_array :
    truthy (operationsValue tx) = true ->
    (forall operations, operationsValue tx <> JArr operations) ->
    Aborts tx
| null_operation before null after :
    operationsValue tx = JArr (before ++ null :: after) ->
    Forall (fun op => invokesHostFunction op = false) before ->
    nullish null = true ->
    Aborts tx.

Lemma signersOf_truthy tx :
  truthy tx = true -> signersOf tx = inr (signersFor tx).
Proof.
  intros T. unfold signersOf, signersFor.
  rewrite !(get_truthy tx _ T). cbn [bind].
  rewrite (opt_get_total (prop tx "envelope") "signatures").
  unfold and_then.
  destruct (truthy (prop tx "envelopeXdr")) eqn:X; cbn [bind andb].
  - destruct (truthy (prop (prop tx "envelope") "signatures")); reflexivity.
  - rewrite X. reflexivity.
Qed.

Lemma detailsOf_detailOf tx :
  truthy tx = true -> detailsOf tx = inr (detailOf tx).
Proof.
  intros T. unfold detailsOf. rewrite (signersOf_truthy tx T). cbn [bind].
  rewrite !(get_truthy tx _ T). cbn [bind].
  destruct (and_then_truthy (prop tx "resultMetaXdr") (prop tx "meta"))
    as (guard & -> & HD).
  cbn [bind ret]. unfold detailOf, localsOf. rewrite <- HD. reflexivity.
Qed.

(** With an answer that has a truthy result and no error, the detail is
    [detailOf] of the result. *)
Lemma fetchTransactionDetails_detailOf env txHash data :
  Answered (fetch env SOROBAN_RPC_URL (detailsRequest txHash)) data ->
  truthy (prop data "error") = false ->
  truthy (prop data "result") = true ->
  fetchTransactionDetails env txHash = Some (detailOf (prop data "result")).
Proof.
  intros HA HE HT. unfold fetchTransactionDetails.
  rewrite (fetchTransactionDetails_try_answered env txHash data HA).
  destruct (prop_truthy_is_object _ _ HT) as [fields ->].
  unfold detailsOfData. rewrite get_object. cbn [bind].
  cbn [prop] in HE, HT |- *. rewrite HE. rewrite get_object. cbn [bind].
  rewrite HT. cbn [negb]. rewrite (detailsOf_detailOf _ HT). reflexivity.
Qed.

(** X16: a detail object is returned only for a request answered with
    status 2xx by a body without error and with a truthy result; its hash,
    ledger, creation time and status are those of the result (the hash is
    the answer's [id], not the hash asked for), and [envelope] and [meta]
    are the result's, unchanged. *)
Theorem fetchTransactionDetails_some env txHash details :
  fetchTransactionDetails env txHash = Some details ->
  exists data,
    Answered (fetch env SOROBAN_RPC_URL (detailsRequest txHash)) data /\
    truthy (prop data "error") = false /\
    truthy (prop data "result") = true /\
    TransactionDetails.txHash details = prop (prop data "result") "id" /\
    TransactionDetails.ledger details = prop (prop data "result") "ledger" /\
    TransactionDetails.createdAt details = prop (prop data "result") "createdAt" /\
    TransactionDetails.status details = prop (prop data "result") "status" /\
    TransactionDetails.envelope details = prop (prop data "result") "envelope" /\
    TransactionDetails.meta details = prop (prop data "result") "meta".
Proof.
  intros H.
  assert (A : exists data,
             Answered (fetch env SOROBAN_RPC_URL (detailsRequest txHash)) data).
  { unfold fetchTransactionDetails, fetchTransactionDetails_try in H.
    destruct (fetch env SOROBAN_RPC_URL (detailsRequest txHash))
      as [?|response]; [discriminate H|].
    cbn [await ret bind] in H.
    destruct (Response.ok response) eqn:K; [|discriminate H].
    destruct (Response.json response) as [?|data] eqn:J; [discriminate H|].
    exists data, response. repeat split; assumption. }
  destruct A as [data HA]. exists data. split; [exact HA|].
  unfold fetchTransactionDetails in H.
  rewrite (fetchTransactionDetails_try_answered env txHash data HA) in H.
  unfold detailsOfData in H.
  destruct (get data "error") as [?|error] eqn:GE; [discriminate H|].
  apply get_inr in GE. subst error. cbn [bind] in H.
  destruct (truthy (prop data "error")); [discriminate H|].
  split; [reflexivity|].
  destruct (get data "result") as [?|tx] eqn:GR; [discriminate H|].
  apply get_inr in GR. subst tx. cbn [bind] in H.
  destruct (truthy (prop data "result")) eqn:T; [|discriminate H].
  split; [reflexivity|].
  cbn [negb] in H. rewrite (detailsOf_detailOf _ T) in H.
  cbn in H. injection H as <-. repeat split.
Qed.

Lemma fetchTransactionDetails_some_witness :
  exists data,
    Answered (fetch (worldOf (answer paymentAnswer)) SOROBAN_RPC_URL
                (detailsRequest "ffff")) data /\
    truthy (prop data "error") = false /\
    truthy (prop data "result") = true /\
    TransactionDetails.txHash (detailOf (prop paymentAnswer "result"))
    = prop (prop data "result") "id" /\
    TransactionDetails.ledger (detailOf (prop paymentAnswer "result"))
    = prop (prop data "result") "ledger" /\
    TransactionDetails.createdAt (detailOf (prop paymentAnswer "result"))
    = prop (prop data "result") "createdAt" /\
    TransactionDetails.status (detailOf (prop paymentAnswer "result"))
    = prop (prop data "result") "status" /\
    TransactionDetails.envelope (detailOf (prop paymentAnswer "result"))
    = prop (prop data "result") "envelope" /\
    TransactionDetails.meta (detailOf (prop paymentAnswer "result"))
    = prop (prop data "result") "meta".
Proof.
  apply (fetchTransactionDetails_some (worldOf (answer paymentAnswer)) "ffff"
           (detailOf (prop paymentAnswer "result"))).
  reflexivity.
Defined.

(** X17: the signers of a detail object are a placeholder, never signer
    identities: one fixed string when the result has a truthy
    [envelopeXdr] and its envelope has truthy [signatures], and nothing
    otherwise. *)
Theorem fetchTransactionDetails_signers env txHash data :
  Answered (fetch env SOROBAN_RPC_URL (detailsRequest txHash)) data ->
  truthy (prop data "error") = false ->
  truthy (prop data "result") = true ->
  exists details,
    fetchTransactionDetails env txHash = Some details /\
    TransactionDetails.signers details =
    if truthy (prop (prop data "result") "envelopeXdr")
       && truthy (prop (prop (prop data "result") "envelope") "signatures")
    then ["(Signature validation required)"%string]
    else [].
Proof.
  intros HA HE HT.
  rewrite (fetchTransactionDetails_detailOf env txHash data HA HE HT).
  eexists. split; reflexivity.
Qed.

Lemma fetchTransactionDetails_signers_witness :
  exists details,
    fetchTransactionDetails (worldOf (answer paymentAnswer)) "abc"
    = Some details /\
    TransactionDetails.signers details = [].
Proof.
  apply (fetchTransactionDetails_signers
           (worldOf (answer paymentAnswer)) "abc" paymentAnswer).
  - eexists. repeat split; reflexivity.
  - reflexivity.
  - reflexivity.
Defined.

Lemma isInvokeOp_not_nullish op :
  nullish op = false ->
  isInvokeOp op = inr (prop (prop op "body") "invokeHostFunction").
Proof.
  intros N. unfold isInvokeOp. rewrite (get_not_nullish op _ N). cbn [bind].
  apply opt_get_total.
Qed.

Lemma invoking_is_object op :
  invokesHostFunction op = true -> nullish op = false /\ truthy op = true.
Proof.
  unfold invokesHostFunction. intros H.
  destruct (prop_truthy_is_object _ _ H) as [bodyFields B].
  destruct (prop_defined_is_object op "body") as [fields ->].
  - rewrite B. discriminate.
  - split; reflexivity.
Qed.

(** [find] returns the first operation that invokes a host function,
    provided no [null] comes before it. *)
Lemma findM_first before op after :
  Forall (fun o => nullish o = false /\ invokesHostFunction o = false) before ->
  invokesHostFunction op = true ->
  findM isInvokeOp (before ++ op :: after) = inr op.
Proof.
  intros HB HO. induction HB as [|o before [N I] _ IH]; cbn [app findM].
  - destruct (invoking_is_object op HO) as [N _].
    rewrite (isInvokeOp_not_nullish op N). cbn [bind].
    unfold invokesHostFunction in HO. rewrite HO. reflexivity.
  - rewrite (isInvokeOp_not_nullish o N). cbn [bind].
    unfold invokesHostFunction in I. rewrite I. exact IH.
Qed.

(** [find] throws on a [null] that no invoking operation precedes. *)
Lemma findM_null before null after :
  Forall (fun o => invokesHostFunction o = false) before ->
  nullish null = true ->
  exists e, findM isInvokeOp (before ++ null :: after) = inl e.
Proof.
  intros HB HN. induction HB as [|o before I _ [e IH]]; cbn [app findM].
  - unfold isInvokeOp. destruct (get_nullish null "body" HN) as [e ->].
    exists e. reflexivity.
  - destruct (isInvokeOp o) as [e'|found] eqn:F; cbn [bind].
    + exists e'. reflexivity.
    + rewrite (isInvokeOp_inr o found F), I. exists e. exact IH.
Qed.

(** Over operations without [null], [find] returns [undefined] or the
    first invoking operation. *)
Lemma findM_decompose operations :
  Forall (fun o => nullish o = false) operations ->
  findM isInvokeOp operations = inr JUndefined \/
  exists before op after,
    operations = (before ++ op :: after)%list /\
    Forall (fun o => nullish o = false /\ invokesHostFunction o = false) before /\
    invokesHostFunction op = true.
Proof.
  induction 1 as [|o operations N _ IH]; [left; reflexivity|].
  destruct (invokesHostFunction o) eqn:I.
  - right. exists [], o, operations. repeat split; [constructor|exact I].
  - destruct IH as [IH | (before & op & after & -> & HB & HO)].
    + left. cbn [findM]. rewrite (isInvokeOp_not_nullish o N). cbn [bind].
      unfold invokesHostFunction in I. rewrite I. exact IH.
    + right. exists (o :: before), op, after.
      repeat split; [constructor; [split; assumption|exact HB] | exact HO].
Qed.

(** Lines 188-198 when [find] returns the operation [op]. *)
Lemma extractCall_first tx l before op after :
  truthy tx = true ->
  operationsValue tx = JArr (before ++ op :: after) ->
  Forall (fun o => nullish o = false /\ invokesHostFunction o = false) before ->
  invokesHostFunction op = true ->
  extractCall tx l = (callLocals op l, inr tt).
Proof.
  intros T E HB HO. unfold extractCall, sbind, lift.
  rewrite (operationsOf_truthy tx T). fold (operationsValue tx). rewrite E.
  unfold or at 1. cbn [truthy array_find]. rewrite (findM_first _ _ _ HB HO).
  destruct (invoking_is_object op HO) as [_ TO]. rewrite TO.
  unfold callLocals, invokeContractOf.
  unfold invokesHostFunction in HO.
  destruct (prop_truthy_is_object _ _ HO) as [bodyFields B].
  rewrite (get_truthy op _ TO). cbn [bind]. rewrite B in *.
  rewrite get_object. cbn [bind]. cbn [prop] in HO |- *.
  rewrite (get_truthy _ "hostFunction" HO).
  rewrite opt_get_total.
  set (hostFunction := prop (lookup "invokeHostFunction" bodyFields) "hostFunction").
  destruct (truthy (prop hostFunction "invokeContract")) eqn:IC; [|reflexivity].
  destruct (prop_truthy_is_object _ _ IC) as [hostFields HF].
  rewrite HF in *. rewrite !get_object. cbn [bind prop] in IC |- *.
  rewrite !(get_truthy _ _ IC). reflexivity.
Qed.

(** Lines 188-198 throw, and assign nothing, on operations that make the
    block give up. *)
Lemma extractCall_aborts tx l :
  truthy tx = true -> Aborts tx -> exists e, extractCall tx l = (l, inl e).
Proof.
  intros T A. unfold extractCall, sbind, lift.
  rewrite (operationsOf_truthy tx T). fold (operationsValue tx).
  destruct A as [TV NA | before null after E HB HN].
  - unfold or. rewrite TV.
    destruct (operationsValue tx) as [| |b|n|t|operations|fields];
      cbn [array_find throw]; try (eexists; reflexivity).
    contradiction (NA operations). reflexivity.
  - rewrite E. unfold or. cbn [truthy array_find].
    destruct (findM_null before null after HB HN) as [e ->].
    exists e. reflexivity.
Qed.

(** Lines 188-198 complete, leaving [result] alone, when the operations
    are absent or an array without [null]. *)
Lemma extractCall_completes tx l :
  truthy tx = true ->
  truthy (operationsValue tx) = false \/
  (exists operations,
      operationsValue tx = JArr operations /\
      Forall (fun o => nullish o = false) operations) ->
  exists l', extractCall tx l = (l', inr tt) /\ result l' = result l.
Proof.
  intros T [F | (operations & E & W)].
  - exists l. split; [|reflexivity].
    unfold extractCall, sbind, lift.
    rewrite (operationsOf_truthy tx T). fold (operationsValue tx).
    unfold or. rewrite F. reflexivity.
  - destruct (findM_decompose operations W)
      as [U | (before & op & after & -> & HB & HO)].
    + exists l. split; [|reflexivity].
      unfold extractCall, sbind, lift.
      rewrite (operationsOf_truthy tx T). fold (operationsValue tx).
      rewrite E. unfold or. cbn [truthy array_find]. rewrite U. reflexivity.
    + exists (callLocals op l).
      split; [exact (extractCall_first tx l before op after T E HB HO)|].
      unfold callLocals. destruct (truthy (invokeContractOf op)); reflexivity.
Qed.

(** Lines 200-203 on a result whose [meta] is truthy. *)
Lemma extractResult_decodable tx l :
  truthy tx = true ->
  truthy (prop tx "meta") = true ->
  extractResult tx l =
  (if truthy (returnValueAt tx)
   then mkLocals (calledFunction l) (args l) (returnValueAt tx)
   else l,
   inr tt).
Proof.
  intros T M. unfold extractResult, sbind, lift, returnValueOf.
  rewrite (get_truthy tx _ T). cbn [bind].
  rewrite (get_truthy _ "v3" M). cbn [bind].
  rewrite opt_get_total. cbn [bind]. rewrite opt_get_total.
  fold (returnValueAt tx).
  destruct (truthy (returnValueAt tx)); reflexivity.
Qed.

Lemma decodable_meta tx : decodable tx = true -> truthy (prop tx "meta") = true.
Proof. unfold decodable. intros H. apply andb_true_iff in H. apply H. Qed.

Lemma localsOf_decodable tx :
  decodable tx = true -> localsOf tx = try_warn (extract tx) unassigned.
Proof. unfold decodable, localsOf. intros ->. reflexivity. Qed.

(** X18: the called function is read off the first operation that invokes
    a host function (operations before it that do not are skipped): when
    it invokes a contract, [calledFunction] is its function name, or
    "invoke_contract" when the name is missing or empty, and [args] are
    its arguments, or the empty list when they are missing; when it does
    not invoke a contract, both stay absent. *)
Theorem fetchTransactionDetails_first_invoke
    env txHash data before op after :
  Answered (fetch env SOROBAN_RPC_URL (detailsRequest txHash)) data ->
  truthy (prop data "error") = false ->
  truthy (prop data "result") = true ->
  decodable (prop data "result") = true ->
  operationsValue (prop data "result") = JArr (before ++ op :: after) ->
  Forall (fun o => nullish o = false /\ invokesHostFunction o = false) before ->
  invokesHostFunction op = true ->
  exists details,
    fetchTransactionDetails env txHash = Some details /\
    if truthy (invokeContractOf op) then
      TransactionDetails.calledFunction details =
        or (prop (invokeContractOf op) "functionName") (JStr "invoke_contract") /\
      TransactionDetails.args details =
        or (prop (invokeContractOf op) "args") (JArr [])
    else
      TransactionDetails.calledFunction details = JUndefined /\
      TransactionDetails.args details = JUndefined.
Proof.
  intros HA HE HT HD E HB HO.
  rewrite (fetchTransactionDetails_detailOf env txHash data HA HE HT).
  eexists. split; [reflexivity|].
  cbn [detailOf TransactionDetails.calledFunction TransactionDetails.args].
  rewrite (localsOf_decodable _ HD). unfold try_warn, extract, sbind.
  rewrite (extractCall_first _ unassigned before op after HT E HB HO).
  destruct (extractResult_keeps (prop data "result") (callLocals op unassigned))
    as [-> ->].
  unfold callLocals. destruct (truthy (invokeContractOf op)); split; reflexivity.
Qed.

(** A payment followed by two contract invocations, the first without a
    function name. *)
Definition twoInvocationsAnswer : JsVal :=
  JObj [("jsonrpc", JStr "2.0"); ("id", JNum 2);
        ("result", JObj [
           ("id", JStr "abc"); ("ledger", JNum 5); ("createdAt", JStr "t");
           ("status", JStr "SUCCESS");
           ("envelopeXdr", JStr "AAAA"); ("resultMetaXdr", JStr "BBBB");
           ("envelope", JObj [
              ("signatures", JArr [JObj [("hint", JStr "00")]]);
              ("v1", JObj [
                 ("tx", JObj [
                    ("operations", JArr [
                       JObj [("body", JObj [("payment", JObj [])])];
                       JObj [("body", JObj [
                          ("invokeHostFunction", JObj [
                             ("hostFunction", JObj [
                                ("invokeContract", JObj [
                                   ("args", JArr [JNum 1])])])])])];
                       JObj [("body", JObj [
                          ("invokeHostFunction", JObj [
                             ("hostFunction", JObj [
                                ("invokeContract", JObj [
                                   ("functionName", JStr "release")])])])])]])])])]);
           ("meta", JObj [
              ("v3", JObj [
                 ("sorobanMeta", JObj [("returnValue", JObj [("u32", JNum 7)])])])])])].

Lemma fetchTransactionDetails_first_invoke_witness :
  exists details,
    fetchTransactionDetails (worldOf (answer twoInvocationsAnswer)) "abc"
    = Some details /\
    TransactionDetails.calledFunction details = JStr "invoke_contract" /\
    TransactionDetails.args details = JArr [JNum 1].
Proof.
  apply (fetchTransactionDetails_first_invoke
           (worldOf (answer twoInvocationsAnswer)) "abc" twoInvocationsAnswer
           [JObj [("body", JObj [("payment", JObj [])])]]
           (JObj [("body", JObj [
              ("invokeHostFunction", JObj [
                 ("hostFunction", JObj [
                    ("invokeContract", JObj [("args", JArr [JNum 1])])])])])])
           [JObj [("body", JObj [
              ("invokeHostFunction", JObj [
                 ("hostFunction", JObj [
                    ("invokeContract", JObj [
                       ("functionName", JStr "release")])])])])]]).
  - eexists. repeat split; reflexivity.
  - reflexivity.
  - reflexivity.
  - reflexivity.
  - reflexivity.
  - repeat constructor.
  - reflexivity.
Defined.

(** X19: the extraction block gives up as a whole: when the operations
    are something truthy that is not an array, or hold a [null] that no
    invoking operation precedes, then [calledFunction], [args] and also
    [result] are absent, even if a later operation invokes a contract and
    the metadata holds a return value.  The detail object is still
    returned. *)
Theorem fetchTransactionDetails_aborts env txHash data :
  Answered (fetch env SOROBAN_RPC_URL (detailsRequest txHash)) data ->
  truthy (prop data "error") = false ->
  truthy (prop data "result") = true ->
  Aborts (prop data "result") ->
  exists details,
    fetchTransactionDetails env txHash = Some details /\
    TransactionDetails.calledFunction details = JUndefined /\
    TransactionDetails.args details = JUndefined /\
    TransactionDetails.result details = JUndefined.
Proof.
  intros HA HE HT HX.
  rewrite (fetchTransactionDetails_detailOf env txHash data HA HE HT).
  eexists. split; [reflexivity|].
  cbn [detailOf TransactionDetails.calledFunction TransactionDetails.args
       TransactionDetails.result].
  assert (L : localsOf (prop data "result") = unassigned).
  { unfold localsOf.
    destruct (truthy (prop (prop data "result") "resultMetaXdr")
              && truthy (prop (prop data "result") "meta")); [|reflexivity].
    unfold try_warn, extract, sbind.
    destruct (extractCall_aborts _ unassigned HT HX) as [e ->]. reflexivity. }
  rewrite L. repeat split.
Qed.

(** A [null] operation, then a contract invocation, with a return value
    in the metadata. *)
Definition nullOperationAnswer : JsVal :=
  JObj [("jsonrpc", JStr "2.0"); ("id", JNum 2);
        ("result", JObj [
           ("id", JStr "abc"); ("ledger", JNum 5); ("createdAt", JStr "t");
           ("status", JStr "SUCCESS");
           ("envelopeXdr", JStr "AAAA"); ("resultMetaXdr", JStr "BBBB");
           ("envelope", JObj [
              ("v1", JObj [
                 ("tx", JObj [
                    ("operations", JArr [
                       JNull;
                       JObj [("body", JObj [
                          ("invokeHostFunction", JObj [
                             ("hostFunction", JObj [
                                ("invokeContract", JObj [
                                   ("functionName", JStr "release")])])])])]])])])]);
           ("meta", JObj [
              ("v3", JObj [
                 ("sorobanMeta", JObj [("returnValue", JObj [("u32", JNum 7)])])])])])].

Lemma fetchTransactionDetails_aborts_witness :
  returnValueAt (prop nullOperationAnswer "result") = JObj [("u32", JNum 7)] /\
  exists details,
    fetchTransactionDetails (worldOf (answer nullOperationAnswer)) "abc"
    = Some details /\
    TransactionDetails.calledFunction details = JUndefined /\
    TransactionDetails.args details = JUndefined /\
    TransactionDetails.result details = JUndefined.
Proof.
  split; [reflexivity|].
  apply (fetchTransactionDetails_aborts
           (worldOf (answer nullOperationAnswer)) "abc" nullOperationAnswer).
  - eexists. repeat split; reflexivity.
  - reflexivity.
  - reflexivity.
  - eapply (null_operation _ [] JNull); [reflexivity | constructor | reflexivity].
Defined.

(** X20: when both [resultMetaXdr] and [meta] are truthy and the
    operations are absent or an array without [null], [result] is the
    return value found at [meta.v3.sorobanMeta.returnValue] if that is
    truthy, and absent otherwise: a return value that is [0], [false],
    [null] or the empty string is reported as no result. *)
Theorem fetchTransactionDetails_result env txHash data :
  Answered (fetch env SOROBAN_RPC_URL (detailsRequest txHash)) data ->
  truthy (prop data "error") = false ->
  truthy (prop data "result") = true ->
  decodable (prop data "result") = true ->
  truthy (operationsValue (prop data "result")) = false \/
  (exists operations,
      operationsValue (prop data "result") = JArr operations /\
      Forall (fun o => nullish o = false) operations) ->
  exists details,
    fetchTransactionDetails env txHash = Some details /\
    TransactionDetails.result details =
    if truthy (returnValueAt (prop data "result"))
    then returnValueAt (prop data "result")
    else JUndefined.
Proof.
  intros HA HE HT HD HW.
  rewrite (fetchTransactionDetails_detailOf env txHash data HA HE HT).
  eexists. split; [reflexivity|].
  cbn [detailOf TransactionDetails.result].
  rewrite (localsOf_decodable _ HD). unfold try_warn, extract, sbind.
  destruct (extractCall_completes _ unassigned HT HW) as (l' & -> & R).
  rewrite (extractResult_decodable _ l' HT (decodable_meta _ HD)).
  cbn [fst].
  destruct (truthy (returnValueAt (prop data "result")));
    [reflexivity | exact R].
Qed.

Lemma fetchTransactionDetails_result_witness :
  exists details,
    fetchTransactionDetails (worldOf (answer twoInvocationsAnswer)) "abc"
    = Some details /\
    TransactionDetails.result details = JObj [("u32", JNum 7)].
Proof.
  apply (fetchTransactionDetails_result
           (worldOf (answer twoInvocationsAnswer)) "abc" twoInvocationsAnswer).
  - eexists. repeat split; reflexivity.
  - reflexivity.
  - reflexivity.
  - reflexivity.
  - right. eexists. split; [reflexivity|]. repeat constructor.
Defined.

End DetailFacts.

(* ================================================================== *)
(** ** The transport: what the client asks                            *)
(* ================================================================== *)

Module TransportFacts.











End TransportFacts.
